(** * graph-corag: the knowledge-base build pipeline (kb/build, stages 01-06)

    A shallow embedding of the stage drivers of [kb/build] and the
    properties of the entity catalog, the per-source edge files, the edge
    merger and the dictionary/overlay emitter.

    Conventions of the embedding.

    - Text is [string] (a sequence of bytes).  Python's [str.strip],
      [str.lower], [str.upper] and the regular-expression class [\s] are
      modelled on the ASCII range: bytes above 127 are neither white space
      nor letters and are left unchanged.  Python compares strings by code
      point; on UTF-8 bytes that is the byte-wise order [String.le].
    - A Python [dict] is a [gmap], a Python [set] a [gset]; [sorted(...)]
      is [merge_sort] of the elements.
    - A file is the list of its rows; an RRF/TSV/CSV row is the list of its
      fields, a JSON-lines or csv.DictWriter row is a record.
    - A float score is the rational number its decimal literal denotes;
      binary64 rounding is not part of the model. *)

From Stdlib Require Import QArith Qround.
From Stdlib Require Import Ascii String DecimalString.
From stdpp Require Import gmap strings list fin_maps sorting.

Local Open Scope stdpp_scope.
Set Warnings "-clear-no-such-hyp".

(** ** Python string primitives *)

Module Py.

Definition code (c : ascii) : N := N_of_ascii c.

(** [str.isspace] on one ASCII character: TAB, LF, VT, FF, CR,
    FS, GS, RS, US and the space. *)
Definition is_space (c : ascii) : bool :=
  ((9 <=? code c) && (code c <=? 13) || (28 <=? code c) && (code c <=? 32))%N.

Definition is_upper (c : ascii) : bool := ((65 <=? code c) && (code c <=? 90))%N.
Definition is_lower (c : ascii) : bool := ((97 <=? code c) && (code c <=? 122))%N.
Definition is_digit (c : ascii) : bool := ((48 <=? code c) && (code c <=? 57))%N.
Definition is_alnum_lower (c : ascii) : bool := is_lower c || is_digit c.

Definition lower_char (c : ascii) : ascii :=
  if is_upper c then ascii_of_N (code c + 32) else c.
Definition upper_char (c : ascii) : ascii :=
  if is_lower c then ascii_of_N (code c - 32) else c.

Fixpoint smap (f : ascii → ascii) (s : string) : string :=
  match s with
  | EmptyString => EmptyString
  | String c s' => String (f c) (smap f s')
  end.

Definition lower : string → string := smap lower_char.
Definition upper : string → string := smap upper_char.

Fixpoint all_chars (p : ascii → bool) (s : string) : bool :=
  match s with
  | EmptyString => true
  | String c s' => p c && all_chars p s'
  end.

(** [s.lstrip(chars)], [s.rstrip(chars)] and [s.strip(chars)] for a
    character class [p]. *)
Fixpoint lstrip_by (p : ascii → bool) (s : string) : string :=
  match s with
  | EmptyString => EmptyString
  | String c s' => if p c then lstrip_by p s' else s
  end.

Fixpoint rstrip_by (p : ascii → bool) (s : string) : string :=
  match s with
  | EmptyString => EmptyString
  | String c s' =>
      match rstrip_by p s' with
      | EmptyString => if p c then EmptyString else String c EmptyString
      | r => String c r
      end
  end.

Definition strip_by (p : ascii → bool) (s : string) : string :=
  rstrip_by p (lstrip_by p s).

Definition strip : string → string := strip_by is_space.

(** [re.sub(r"[class]+", r, s)]: every maximal run of characters of the
    class [p] becomes the single character [r].  [prev] records that the
    preceding character belonged to the run being replaced. *)
Fixpoint sub_runs_from (p : ascii → bool) (r : ascii) (prev : bool) (s : string) : string :=
  match s with
  | EmptyString => EmptyString
  | String c s' =>
      if p c then
        if prev then sub_runs_from p r true s'
        else String r (sub_runs_from p r true s')
      else String c (sub_runs_from p r false s')
  end.

Definition sub_runs (p : ascii → bool) (r : ascii) : string → string :=
  sub_runs_from p r false.

Definition is_empty (s : string) : bool :=
  match s with EmptyString => true | _ => false end.

(** Truthiness of a string: [if s:]. *)
Definition truthy (s : string) : bool := negb (is_empty s).

(** [needle in hay]. *)
Fixpoint contains (needle hay : string) : bool :=
  String.prefix needle hay ||
  match hay with
  | EmptyString => false
  | String _ hay' => contains needle hay'
  end.

(** [s.split(sep)] for a one-character separator. *)
Fixpoint split_on (sep : ascii) (s : string) : list string :=
  match s with
  | EmptyString => [EmptyString]
  | String c s' =>
      if Ascii.eqb c sep then EmptyString :: split_on sep s'
      else match split_on sep s' with
           | [] => [String c EmptyString]
           | w :: ws => String c w :: ws
           end
  end.

(** [sep.join(l)]. *)
Definition join (sep : string) (l : list string) : string := String.concat sep l.

(** [s.replace(".", "", 1)]. *)
Fixpoint remove_first (x : ascii) (s : string) : string :=
  match s with
  | EmptyString => EmptyString
  | String c s' => if Ascii.eqb c x then s' else String c (remove_first x s')
  end.

(** [s.isdigit()] on ASCII text: non-empty and only decimal digits. *)
Definition isdigit (s : string) : bool := truthy s && all_chars is_digit s.

(** [sorted(xs)] for a set of strings. *)
Definition sorted (xs : gset string) : list string :=
  merge_sort String.le (elements xs).

(** [sorted(xs, key=str.casefold)]; elements with equal keys keep the
    order in which [elements] lists them (Python: the set's iteration
    order). *)
Definition casefold_le (a b : string) : Prop := String.le (lower a) (lower b).
Definition sorted_casefold (xs : gset string) : list string :=
  merge_sort casefold_le (elements xs).

End Py.

(** ** kb/build/common.py *)

(** [iter_rrf] and [iter_tsv] on the lines of a file:
    [line.rstrip("\n").split(sep)]. *)
Definition is_newline (c : ascii) : bool := Ascii.eqb c "010".

Definition iter_rrf (lines : list string) : list (list string) :=
  (λ line, Py.split_on "|" (Py.rstrip_by is_newline line)) <$> lines.

Definition iter_tsv (lines : list string) : list (list string) :=
  (λ line, Py.split_on "009" (Py.rstrip_by is_newline line)) <$> lines.

(** [normalize_surface]: strip, lower-case, collapse white-space runs. *)
Definition normalize_surface (text : string) : string :=
  Py.sub_runs Py.is_space " " (Py.lower (Py.strip text)).

(** [slugify]. *)
Definition slugify (text : string) : string :=
  let s := Py.sub_runs Py.is_space " " (Py.lower (Py.strip text)) in
  let s := Py.sub_runs (λ c, negb (Py.is_alnum_lower c)) "_" s in
  let s := Py.strip_by (λ c, Ascii.eqb c "_") (Py.sub_runs (λ c, Ascii.eqb c "_") "_" s) in
  if Py.truthy s then s else "unknown".

(** ** Scores

    A score is the rational value of a decimal literal.  [float(s)] is
    modelled on the grammar [sign? (digits (. digits?)? | . digits)
    ((e|E) sign? digits)?]; the spellings [inf], [nan] and digit groups with
    underscores, which Python also accepts, are outside the model.
    Python's [repr] of a float is modelled by [repr_float] for values with
    at most 17 fractional digits (no exponent notation). *)

Module Score.

Definition digit_val (c : ascii) : Z := Z.of_N (Py.code c - 48).

Fixpoint digits_val (acc : Z) (s : string) : Z :=
  match s with
  | EmptyString => acc
  | String c s' => digits_val (10 * acc + digit_val c) s'
  end.

(** Split at the first character of class [p]; the separator is dropped. *)
Fixpoint split_first (p : ascii → bool) (s : string) : string * option string :=
  match s with
  | EmptyString => (EmptyString, None)
  | String c s' =>
      if p c then (EmptyString, Some s')
      else let '(a, b) := split_first p s' in (String c a, b)
  end.

Definition is_dot (c : ascii) : bool := Ascii.eqb c ".".
Definition is_exp (c : ascii) : bool := Ascii.eqb c "e" || Ascii.eqb c "E".

Definition pow10 (z : Z) : Q := Qpower (10 # 1) z.

(** Value of [digits] or [digits.digits] (either side may be empty). *)
Definition decimal_value (s : string) : Q :=
  let '(ip, fp) := split_first is_dot s in
  let fp := default EmptyString fp in
  Qred ((digits_val 0 (ip +:+ fp) # 1) * pow10 (- Z.of_nat (String.length fp))).

Definition strip_sign (s : string) : bool * string :=
  match s with
  | String "-" s' => (true, s')
  | String "+" s' => (false, s')
  | _ => (false, s)
  end.

Definition valid_mantissa (s : string) : bool :=
  let '(ip, fp) := split_first is_dot s in
  let fp := default EmptyString fp in
  Py.all_chars Py.is_digit ip && Py.all_chars Py.is_digit fp
  && (Py.truthy ip || Py.truthy fp).

(** [float(s)]; [None] stands for [ValueError]. *)
Definition parse_float (s : string) : option Q :=
  let '(neg, body) := strip_sign s in
  let '(mant, ex) := split_first is_exp body in
  if valid_mantissa mant then
    let m := decimal_value mant in
    let m := if neg then Qopp m else m in
    match ex with
    | None => Some (Qred m)
    | Some e =>
        let '(eneg, ed) := strip_sign e in
        if Py.isdigit ed then
          let z := digits_val 0 ed in
          Some (Qred (m * pow10 (if eneg then - z else z)))
        else None
    end
  else None.

Definition string_of_N (n : N) : string := NilZero.string_of_uint (N.to_uint n).

Fixpoint zeros (n : nat) : string :=
  match n with O => EmptyString | S n' => String "0" (zeros n') end.

Definition pad_left (width : nat) (s : string) : string :=
  zeros (width - String.length s) +:+ s.

(** Round to the nearest integer, ties to even. *)
Definition round_half_even (q : Q) : Z :=
  let n := Qnum q in
  let d := Zpos (Qden q) in
  let fl := (n / d)%Z in
  let r := (n mod d)%Z in
  match (2 * r ?= d)%Z with
  | Lt => fl
  | Gt => (fl + 1)%Z
  | Eq => if Z.even fl then fl else (fl + 1)%Z
  end.

(** [f"{x:.4f}"]. *)
Definition format4 (q : Q) : string :=
  let r := round_half_even (q * (10000 # 1)) in
  let a := Z.to_N (Z.abs r) in
  (if (r <? 0)%Z then "-" else "") +:+
  string_of_N (a / 10000) +:+ "." +:+ pad_left 4 (string_of_N (a mod 10000)).

Fixpoint frac_digits (fuel : nat) (r d : Z) : string :=
  match fuel with
  | O => EmptyString
  | S fuel' =>
      if (r =? 0)%Z then EmptyString
      else String (ascii_of_N (48 + Z.to_N (10 * r / d)))
                  (frac_digits fuel' ((10 * r) mod d) d)
  end.

(** [str(x)] of a float, as [csv.DictWriter] writes it. *)
Definition repr_float (q : Q) : string :=
  let n := Z.abs (Qnum q) in
  let d := Zpos (Qden q) in
  let fr := frac_digits 17 (n mod d) d in
  (if (Qnum q <? 0)%Z then "-" else "") +:+
  string_of_N (Z.to_N (n / d)) +:+ "." +:+ (if Py.truthy fr then fr else "0").

(** [a > b] on scores. *)
Definition gtb (a b : Q) : bool := negb (Qle_bool a b).

End Score.

(** ** Records shared by the stages *)

(** The [entity_type] strings ["drug"], ["disease"], ["chemical"],
    ["gene"] and ["entity"]. *)
Inductive etype := Drug | Disease | Chemical | Gene | Entity.

#[global] Instance etype_eq_dec : EqDecision etype.
Proof. solve_decision. Defined.

Definition etype_str (e : etype) : string :=
  match e with
  | Drug => "drug" | Disease => "disease" | Chemical => "chemical"
  | Gene => "gene" | Entity => "entity"
  end.

(** One line of [entity_catalog.jsonl]. *)
Record catalog_row := CatalogRow {
  row_kg_id : string;
  row_cui : string;
  row_entity_type : etype;
  row_canonical_name : string;
  row_synonyms : list string;
  row_sources : list string
}.

(** One row of a per-source edge file, as handed to [write_edges_csv]. *)
Record edge := Edge {
  edge_h : string;
  edge_r : string;
  edge_t : string;
  edge_source : string;
  edge_score : Q;
  edge_evidence : string
}.

(** One row of an edge file as [csv.DictReader] returns it: six text cells
    (a cell missing from a short row reads as the empty string). *)
Record csv_row := CsvRow {
  cell_h : string;
  cell_r : string;
  cell_t : string;
  cell_source : string;
  cell_score : string;
  cell_evidence : string
}.

(** [write_edges_csv]: the cells written for one edge. *)
Definition write_edge (e : edge) : csv_row :=
  CsvRow (edge_h e) (edge_r e) (edge_t e) (edge_source e)
         (Score.repr_float (edge_score e)) (edge_evidence e).

Definition write_edges_csv (rows : list edge) : list csv_row := write_edge <$> rows.

Definition edge_key (e : edge) : string * string * string :=
  (edge_h e, edge_r e, edge_t e).

(** A surface index: normalized surface -> set of kg_ids
    ([defaultdict(set)]). *)
Definition index_add (n kg : string) (idx : gmap string (gset string))
  : gmap string (gset string) :=
  <[n := {[kg]} ∪ default ∅ (idx !! n)]> idx.

Definition index_of_pairs (l : list (string * string)) : gmap string (gset string) :=
  foldl (λ idx p, index_add p.1 p.2 idx) ∅ l.

(** [idx.get(n, set())]. *)
Definition hits (idx : gmap string (gset string)) (n : string) : gset string :=
  default ∅ (idx !! n).

(** ** Stage 01: 01_build_entity_catalog.py *)

Module Stage01.

Definition DRUG_TUIS : gset string :=
  list_to_set ["T109"; "T110"; "T116"; "T121"; "T126"; "T129"; "T130"; "T195"; "T200"].
Definition DISEASE_TUIS : gset string :=
  list_to_set ["T047"; "T048"; "T184"; "T191"].
Definition CHEMICAL_TUIS : gset string :=
  list_to_set ["T103"; "T104"; "T109"; "T110"; "T111"; "T114"; "T115"; "T116"; "T196"].
Definition GENE_TUIS : gset string :=
  list_to_set ["T028"; "T085"; "T086"; "T087"; "T088"].

(** [tuis & S] is truthy. *)
Definition meets (tuis s : gset string) : bool := bool_decide (tuis ∩ s ≠ ∅).

Definition infer_entity_type (tuis : gset string) : etype :=
  if meets tuis DRUG_TUIS then Drug
  else if meets tuis DISEASE_TUIS then Disease
  else if meets tuis CHEMICAL_TUIS then Chemical
  else if meets tuis GENE_TUIS then Gene
  else Entity.

Definition kg_id_for (cui canonical : string) (et : etype) : string :=
  match et with
  | Entity => "umls_" +:+ Py.lower cui
  | _ => etype_str et +:+ "_" +:+ slugify canonical
  end.

(** A catalog entry while the stage runs. *)
Record concept := Concept {
  kg_id : string;
  cui : string;
  entity_type : etype;
  canonical_name : string;
  synonyms : gset string;
  sources : gset string
}.

Definition add_surface (s source : string) (c : concept) : concept :=
  Concept (kg_id c) (cui c) (entity_type c) (canonical_name c)
          ({[s]} ∪ synonyms c) ({[source]} ∪ sources c).

(** [_add_synonym]: returns the updated catalog and the boolean result.
    [catalog[kg_id]] is present whenever the function gets that far, since
    the index is built from the catalog's own keys. *)
Definition _add_synonym (catalog : gmap string concept)
    (by_norm : gmap string (gset string)) (kg_id value source : string)
  : gmap string concept * bool :=
  let s := Py.strip value in
  if decide (String.length s < 2) then (catalog, false) else
  let n := normalize_surface s in
  match by_norm !! n with
  | None => (catalog, false)
  | Some hs =>
      if decide (size hs ≠ 1) then (catalog, false) else
      match elements hs with
      | [] => (catalog, false)
      | tgt :: _ =>
          if decide (tgt ≠ kg_id) then (catalog, false)
          else (alter (add_surface s source) kg_id catalog, true)
      end
  end.

(** Pass A: MRSTY rows -> [cui_tuis]. *)
Definition sty_step (cui_tuis : gmap string (gset string)) (fields : list string)
  : gmap string (gset string) :=
  if decide (length fields < 4) then cui_tuis else
  let cui := Py.upper (Py.strip (fields !!! 0)) in
  let tui := Py.upper (Py.strip (fields !!! 1)) in
  if Py.truthy cui && Py.truthy tui then index_add cui tui cui_tuis else cui_tuis.

(** State of pass B. *)
Record state := State {
  catalog : gmap string concept;
  cui_to_kg : gmap string string;
  cui_seen : gset string
}.

Definition set_canonical (is_pref : bool) (text : string) (c : concept) : concept :=
  Concept (kg_id c) (cui c) (entity_type c)
          (if is_pref then text else canonical_name c)
          ({[text]} ∪ synonyms c) (sources c).

(** Pass B, the filters on one MRCONSO row: the row is used when it has at
    least 15 fields, a CUI and a surface, is English and its CUI has a
    type other than "entity".  Returns [(cui, is_pref, text, etype)]. *)
Definition conso_row (cui_tuis : gmap string (gset string)) (fields : list string)
  : option (string * bool * string * etype) :=
  if decide (length fields < 15) then None else
  let cui := Py.upper (Py.strip (fields !!! 0)) in
  let lat := Py.upper (Py.strip (fields !!! 1)) in
  let is_pref := bool_decide (Py.upper (Py.strip (fields !!! 6)) = "Y") in
  let text := Py.strip (fields !!! 14) in
  if negb (Py.truthy cui && Py.truthy text) then None else
  if negb (bool_decide (lat = "ENG")) then None else
  let et := infer_entity_type (hits cui_tuis cui) in
  if decide (et = Entity) then None else Some (cui, is_pref, text, et).

(** Pass B, the update for a row that passed the filters. *)
Definition conso_update (st : state) (cui : string) (is_pref : bool)
    (text : string) (et : etype) : state :=
  if decide (cui ∉ cui_seen st) then
    let kg := kg_id_for cui text et in
    State (<[kg := Concept kg cui et text {[text]} {["UMLS"]}]> (catalog st))
          (<[cui := kg]> (cui_to_kg st))
          ({[cui]} ∪ cui_seen st)
  else
    match cui_to_kg st !! cui with
    | None => st
    | Some kg =>
        State (alter (set_canonical is_pref text) kg (catalog st))
              (cui_to_kg st) (cui_seen st)
    end.

(** Pass B: one MRCONSO row. *)
Definition conso_step (cui_tuis : gmap string (gset string)) (st : state)
    (fields : list string) : state :=
  match conso_row cui_tuis fields with
  | None => st
  | Some (cui, is_pref, text, et) => conso_update st cui is_pref text et
  end.

(** [by_norm_surface], built once after pass B. *)
Definition surface_pairs (catalog : gmap string concept) : list (string * string) :=
  '(kg, row) ← map_to_list catalog;
  (λ s, (normalize_surface s, kg)) <$> elements (synonyms row).

Definition build_by_norm (catalog : gmap string concept) : gmap string (gset string) :=
  index_of_pairs (surface_pairs catalog).

(** The body shared by the three enrichment loops:
    [for kg_id in by_norm_surface.get(n, set()):
       if catalog[kg_id]["entity_type"] == wanted:
         _add_synonym(catalog, by_norm_surface, kg_id, name, source)]. *)
Definition enrich_name (wanted : etype) (source : string)
    (by_norm : gmap string (gset string))
    (catalog : gmap string concept) (name : string) : gmap string concept :=
  foldl (λ cat kg,
           match cat !! kg with
           | Some row =>
               if decide (entity_type row = wanted)
               then (_add_synonym cat by_norm kg name source).1
               else cat
           | None => cat
           end)
        catalog (elements (hits by_norm (normalize_surface name))).

(** One RXNCONSO row. *)
Definition rxnorm_step (by_norm : gmap string (gset string))
    (catalog : gmap string concept) (fields : list string) : gmap string concept :=
  if decide (length fields < 15) then catalog else
  let sab := Py.upper (Py.strip (fields !!! 11)) in
  let tty := Py.upper (Py.strip (fields !!! 12)) in
  let text := Py.strip (fields !!! 14) in
  if bool_decide (sab ≠ "RXNORM") || negb (bool_decide (tty ∈ ["IN"; "BN"; "PIN"]))
  then catalog
  else enrich_name Drug "RxNorm" by_norm catalog text.

(** A [db:drug] element: the text of [db:name] (empty when absent), of
    the [db:brands/db:brand] and of the [db:synonyms/db:synonym] children
    (an element without text reads as the empty string). *)
Record drugbank_drug := DrugbankDrug {
  db_name : string;
  db_brands : list string;
  db_synonyms : list string
}.

Definition truthy_set (l : list string) : gset string :=
  list_to_set (filter (λ s, Py.truthy s = true) l).

Definition drugbank_names (d : drugbank_drug) : gset string :=
  truthy_set (db_name d :: db_brands d ++ db_synonyms d).

Definition drugbank_step (by_norm : gmap string (gset string))
    (catalog : gmap string concept) (d : drugbank_drug) : gmap string concept :=
  foldl (enrich_name Drug "DrugBank" by_norm) catalog (elements (drugbank_names d)).

(** A MeSH [DescriptorRecord]: [DescriptorName/String] and the
    [ConceptList/Concept/TermList/Term/String] texts. *)
Record mesh_descriptor := MeshDescriptor {
  mesh_name : string;
  mesh_terms : list string
}.

Definition mesh_names (d : mesh_descriptor) : gset string :=
  truthy_set (mesh_name d :: mesh_terms d).

Definition mesh_step (by_norm : gmap string (gset string))
    (catalog : gmap string concept) (d : mesh_descriptor) : gmap string concept :=
  foldl (enrich_name Disease "MeSH" by_norm) catalog (elements (mesh_names d)).

Definition payload (c : concept) : catalog_row :=
  CatalogRow (kg_id c) (cui c) (entity_type c) (canonical_name c)
             (Py.sorted (synonyms c)) (Py.sorted (sources c)).

(** The raw inputs of the stage. *)
Record inputs := Inputs {
  mrsty : list (list string);
  mrconso : list (list string);
  rxnconso : list (list string);
  drugbank : list drugbank_drug;
  mesh : list mesh_descriptor
}.

Definition pass_a (i : inputs) : gmap string (gset string) :=
  foldl sty_step ∅ (mrsty i).

Definition pass_b (i : inputs) : state :=
  foldl (conso_step (pass_a i)) (State ∅ ∅ ∅) (mrconso i).

Definition enrich (by_norm : gmap string (gset string)) (i : inputs)
    (catalog : gmap string concept) : gmap string concept :=
  let c1 := foldl (rxnorm_step by_norm) catalog (rxnconso i) in
  let c2 := foldl (drugbank_step by_norm) c1 (drugbank i) in
  foldl (mesh_step by_norm) c2 (mesh i).

(** The catalog dictionary at the end of [build], before it is written. *)
Definition final_catalog (i : inputs) : gmap string concept :=
  let cat := catalog (pass_b i) in
  enrich (build_by_norm cat) i cat.

(** [for kg_id in sorted(catalog): write payload]. *)
Definition emit (catalog : gmap string concept) : list catalog_row :=
  omap (λ k, payload <$> catalog !! k) (Py.sorted (dom catalog)).

(** [build]: the lines of [entity_catalog.jsonl]. *)
Definition build (i : inputs) : list catalog_row := emit (final_catalog i).

End Stage01.

(** An RRF row with the given fields at positions 0, 1, 6, 11, 12 and 14. *)
Definition rrf15 (f0 f1 f6 f11 f12 f14 : string) : list string :=
  [f0; f1; ""; ""; ""; ""; f6; ""; ""; ""; ""; f11; f12; ""; f14].

Definition mrsty_row (cui tui : string) : list string := [cui; tui; ""; ""; ""; ""].

(** ** Edge accumulation shared by stages 02-04

    [seen] is the set of edge keys already written, [rows] the list the
    stage appends to. *)

Definition edge_acc : Type := gset (string * string * string) * list edge.

(** [if key in seen: continue; seen.add(key); rows.append(e)]. *)
Definition push_edge (acc : edge_acc) (e : edge) : edge_acc :=
  if decide (edge_key e ∈ acc.1) then acc
  else ({[edge_key e]} ∪ acc.1, acc.2 ++ [e]).

(** [for h in sorted(hs): for t in sorted(ts): ...]. *)
Definition push_pairs (mk : string → string → edge) (hs ts : gset string)
    (acc : edge_acc) : edge_acc :=
  foldl (λ acc h, foldl (λ acc t, push_edge acc (mk h t)) acc (Py.sorted ts))
        acc (Py.sorted hs).

(** The two surface indexes stages 03 and 04 build from the catalog file:
    synonyms of drug and chemical concepts, synonyms of disease concepts. *)
Definition typed_pairs (keep : etype → bool) (rows : list catalog_row)
  : list (string * string) :=
  row ← rows;
  if keep (row_entity_type row)
  then (λ s, (normalize_surface s, row_kg_id row)) <$> row_synonyms row
  else [].

Definition is_drug_or_chemical (t : etype) : bool :=
  match t with Drug | Chemical => true | _ => false end.
Definition is_disease (t : etype) : bool :=
  match t with Disease => true | _ => false end.

Definition drug_index (rows : list catalog_row) : gmap string (gset string) :=
  index_of_pairs (typed_pairs is_drug_or_chemical rows).
Definition disease_index (rows : list catalog_row) : gmap string (gset string) :=
  index_of_pairs (typed_pairs is_disease rows).

(** ** Stage 02: 02_build_edges_umls.py *)

Module Stage02.

Definition _is_drug_like (t : etype) : bool := is_drug_or_chemical t.
Definition _is_disease_like (t : etype) : bool := is_disease t.

(** [map_relation]; [None] is Python's [None]. *)
Definition map_relation (rel rela : string) : option string :=
  let r := Py.lower (Py.strip (if Py.truthy rela then rela else rel)) in
  if bool_decide (r ∈ ["may_treat"; "treats"; "treated_by"; "treatment_of"])
  then Some "TREATS"
  else if bool_decide (r ∈ ["causes"; "induces"; "adverse_effect_of"])
  then Some "ADVERSE_EFFECT"
  else if bool_decide (r ∈ ["contraindicated_with_disease"; "contraindicated_with"])
  then Some "CONTRAINDICATED_FOR"
  else if bool_decide (r ∈ ["interacts_with"; "ddi"; "drug_interaction"])
  then Some "INTERACTS_WITH"
  else if bool_decide (Py.upper (Py.strip rel) ∈ ["RO"; "RQ"])
  then Some "ASSOCIATED_WITH"
  else None.

(** [load_type_map_from_catalog] of common.py: [(cui_to_kgid, kgid_to_type)]. *)
Definition load_step (m : gmap string string * gmap string etype) (row : catalog_row)
  : gmap string string * gmap string etype :=
  let kgid := row_kg_id row in
  let cui := Py.upper (row_cui row) in
  (if Py.truthy cui then <[cui := kgid]> m.1 else m.1,
   <[kgid := row_entity_type row]> m.2).

Definition load_type_map_from_catalog (rows : list catalog_row)
  : gmap string string * gmap string etype :=
  foldl load_step (∅, ∅) rows.

(** [cui_to_kg.get(cui)] followed by the truthiness test of [h and t]. *)
Definition lookup_kg (cui_to_kg : gmap string string) (cui : string) : option string :=
  match cui_to_kg !! cui with
  | Some k => if Py.truthy k then Some k else None
  | None => None
  end.

Definition type_gate (mapped : string) (ht tt : etype) : bool :=
  (if bool_decide (mapped ∈ ["TREATS"; "ADVERSE_EFFECT"; "CONTRAINDICATED_FOR"])
   then _is_drug_like ht && _is_disease_like tt else true)
  && (if bool_decide (mapped = "INTERACTS_WITH")
      then _is_drug_like ht && _is_drug_like tt else true).

(** One MRREL row. *)
Definition rel_step (maps : gmap string string * gmap string etype)
    (acc : edge_acc) (fields : list string) : edge_acc :=
  if decide (length fields < 11) then acc else
  let cui1 := Py.upper (Py.strip (fields !!! 0)) in
  let rel := Py.upper (Py.strip (fields !!! 3)) in
  let cui2 := Py.upper (Py.strip (fields !!! 4)) in
  let rela := Py.strip (fields !!! 7) in
  let sab := Py.strip (fields !!! 10) in
  match map_relation rel rela with
  | None => acc
  | Some mapped =>
      match lookup_kg maps.1 cui1, lookup_kg maps.1 cui2 with
      | Some h, Some t =>
          let ht := default Entity (maps.2 !! h) in
          let tt := default Entity (maps.2 !! t) in
          if type_gate mapped ht tt then
            push_edge acc
              (Edge h mapped t "UMLS" 1
                    (sab +:+ ":" +:+ (if Py.truthy rela then rela else rel)))
          else acc
      | _, _ => acc
      end
  end.

(** [build]: the rows handed to [write_edges_csv]. *)
Definition build (catalog : list catalog_row) (mrrel : list (list string)) : list edge :=
  (foldl (rel_step (load_type_map_from_catalog catalog)) (∅, []) mrrel).2.

End Stage02.

(** ** Stage 03: 03_build_edges_sider.py *)

Module Stage03.

(** [stitch_to_names], from the rows of drug_names.tsv. *)
Definition names_step (m : gmap string string) (fields : list string) : gmap string string :=
  if decide (length fields < 2) then m
  else <[Py.strip (fields !!! 0) := Py.strip (fields !!! 1)]> m.

Definition mk_edge (drug_name effect d e : string) : edge :=
  Edge d "ADVERSE_EFFECT" e "SIDER" (9 # 10) (drug_name +:+ " -> " +:+ effect).

(** The drug name and the side-effect text of one row of
    meddra_all_se.tsv: [stitch_to_names.get(stitch, "")] and the stripped
    last field. *)
Definition se_names (stitch_to_names : gmap string string) (fields : list string)
  : string * string :=
  let stitch := if Py.truthy (Py.strip (fields !!! 0))
                then Py.strip (fields !!! 0) else Py.strip (fields !!! 1) in
  let effect := Py.strip (default EmptyString (last fields)) in
  let drug_name := default EmptyString (stitch_to_names !! stitch) in
  (drug_name, effect).

(** One row of meddra_all_se.tsv. *)
Definition se_step (drug_idx disease_idx : gmap string (gset string))
    (stitch_to_names : gmap string string) (acc : edge_acc) (fields : list string)
  : edge_acc :=
  if decide (length fields < 6) then acc else
  let '(drug_name, effect) := se_names stitch_to_names fields in
  if negb (Py.truthy drug_name && Py.truthy effect) then acc else
  let d_hits := hits drug_idx (normalize_surface drug_name) in
  let e_hits := hits disease_idx (normalize_surface effect) in
  if decide (d_hits = ∅) then acc else
  if decide (e_hits = ∅) then acc else
  push_pairs (mk_edge drug_name effect) d_hits e_hits acc.

Definition build (catalog : list catalog_row)
    (drug_names meddra : list (list string)) : list edge :=
  (foldl (se_step (drug_index catalog) (disease_index catalog)
                  (foldl names_step ∅ drug_names))
         (∅, []) meddra).2.

End Stage03.

(** ** Stage 04: 04_build_edges_ctd.py *)

Module Stage04.

Definition relation_of (direct_evidence : string) : string :=
  if Py.contains "therapeutic" direct_evidence then "TREATS" else "ASSOCIATED_WITH".

(** [float(inf_score) if inf_score.replace(".", "", 1).isdigit() else 0.75]. *)
Definition score_of (inf_score : string) : Q :=
  if Py.isdigit (Py.remove_first "." inf_score)
  then Score.decimal_value inf_score else 3 # 4.

Definition mk_edge (chemical_name disease_name direct_evidence : string)
    (rel : string) (score : Q) (h t : string) : edge :=
  Edge h rel t "CTD" score
       (chemical_name +:+ " -> " +:+ disease_name +:+ " (" +:+ direct_evidence +:+ ")").

(** The rows the loop passes over: empty rows, comment lines, rows with
    fewer than six fields and the header row. *)
Definition ctd_skipped (row : list string) : bool :=
  match row with
  | [] => true
  | row0 :: _ =>
      String.prefix "#" row0 || bool_decide (length row < 6)
      || bool_decide (row0 = "ChemicalName")
  end.

Definition chemical_name (row : list string) : string := Py.strip (row !!! 0).
Definition disease_name (row : list string) : string := Py.strip (row !!! 3).
Definition direct_evidence (row : list string) : string := Py.lower (Py.strip (row !!! 4)).
Definition inf_score (row : list string) : string :=
  if decide (7 < length row) then Py.strip (row !!! 7) else EmptyString.

(** One row of the CTD csv file, as [csv.reader] returns it. *)
Definition ctd_step (chem_idx disease_idx : gmap string (gset string))
    (acc : edge_acc) (row : list string) : edge_acc :=
  if ctd_skipped row then acc else
  let chem_hits := hits chem_idx (normalize_surface (chemical_name row)) in
  let dis_hits := hits disease_idx (normalize_surface (disease_name row)) in
  if decide (chem_hits = ∅) then acc else
  if decide (dis_hits = ∅) then acc else
  push_pairs (mk_edge (chemical_name row) (disease_name row) (direct_evidence row)
                      (relation_of (direct_evidence row)) (score_of (inf_score row)))
             chem_hits dis_hits acc.

Definition build (catalog : list catalog_row) (ctd : list (list string)) : list edge :=
  (foldl (ctd_step (drug_index catalog) (disease_index catalog)) (∅, []) ctd).2.

End Stage04.

(** ** Stage 05: 05_merge_edges.py *)

(** Python's order on [(h, r, t)] tuples: lexicographic. *)
Definition str_lt (a b : string) : Prop := String.le a b ∧ a ≠ b.

Definition key_le (a b : string * string * string) : Prop :=
  str_lt a.1.1 b.1.1 ∨
  (a.1.1 = b.1.1 ∧ (str_lt a.1.2 b.1.2 ∨ (a.1.2 = b.1.2 ∧ String.le a.2 b.2))).

#[global] Instance str_lt_dec : RelDecision str_lt.
Proof. intros a b. unfold str_lt. apply _. Defined.

#[global] Instance key_le_dec : RelDecision key_le.
Proof. intros a b. unfold key_le. apply _. Defined.

Module Stage05.

(** [_read_edges] on one row.  The per-source files carry the header
    [h,r,t,source,score,evidence], so every column alias resolves.
    [None]: the row is skipped. *)
Definition read_row (row : csv_row) : option edge :=
  let h := Py.strip (cell_h row) in
  let rel := Py.strip (cell_r row) in
  let t := Py.strip (cell_t row) in
  if negb (Py.truthy h && Py.truthy rel && Py.truthy t) then None else
  let src := Py.strip (cell_source row) in
  let score_raw := Py.strip (cell_score row) in
  let score := match Score.parse_float score_raw with
               | Some q => q
               | None => 1%Q
               end in
  let ev := Py.strip (cell_evidence row) in
  Some (Edge h rel t src score ev).

Definition _read_edges (rows : list csv_row) : list edge := omap read_row rows.

(** An entry of [merged]; its ["h"], ["r"], ["t"] are the components of the
    key it is stored under. *)
Record entry := Entry {
  m_source : gset string;
  m_score : Q;
  m_evidence : gset string
}.

(** [set([x]) if x else set()]. *)
Definition opt_set (x : string) : gset string := if Py.truthy x then {[x]} else ∅.

Definition merge_step (merged : gmap (string * string * string) entry) (e : edge)
  : gmap (string * string * string) entry :=
  match merged !! edge_key e with
  | None =>
      <[edge_key e := Entry (opt_set (edge_source e)) (edge_score e)
                            (opt_set (edge_evidence e))]> merged
  | Some m =>
      <[edge_key e := Entry ({[edge_source e]} ∪ m_source m)
                            (if Score.gtb (edge_score e) (m_score m)
                             then edge_score e else m_score m)
                            ({[edge_evidence e]} ∪ m_evidence m)]> merged
  end.

(** [sorted(x for x in xs if x)]. *)
Definition tokens (xs : gset string) : list string :=
  Py.sorted (filter (λ x, Py.truthy x = true) xs).

Definition out_row (k : string * string * string) (m : entry) : csv_row :=
  CsvRow k.1.1 k.1.2 k.2
         (Py.join "|" (tokens (m_source m)))
         (Score.format4 (m_score m))
         (Py.join "|" (tokens (m_evidence m))).

Definition merge_all (p1 p2 p3 : list csv_row) : gmap (string * string * string) entry :=
  foldl merge_step ∅ (_read_edges p1 ++ _read_edges p2 ++ _read_edges p3).

Definition sorted_keys (merged : gmap (string * string * string) entry)
  : list (string * string * string) :=
  merge_sort key_le (elements (dom merged)).

(** [build]: the data rows of kg_edges.merged.csv (and of its copy
    kg_edges.merged.plus.csv). *)
Definition build (p1 p2 p3 : list csv_row) : list csv_row :=
  let merged := merge_all p1 p2 p3 in
  omap (λ k, out_row k <$> merged !! k) (sorted_keys merged).

End Stage05.

(** ** Stage 06: 06_build_umls_dict_and_overlay.py *)

Module Stage06.

(** The three dictionaries read from the catalog; [order] is the insertion
    order of the keys of [kg_to_cui]. *)
Record tables := Tables {
  order : list string;
  kg_to_cui : gmap string string;
  kg_to_catalog_syns : gmap string (gset string);
  kg_to_canonical : gmap string string
}.

Definition load_step (t : tables) (row : catalog_row) : tables :=
  let kg := row_kg_id row in
  let cui := Py.upper (Py.strip (row_cui row)) in
  if negb (Py.truthy cui) then t else
  let syns : gset string :=
    list_to_set (filter (λ s, Py.truthy s = true) (Py.strip <$> row_synonyms row)) in
  let canonical := Py.strip (row_canonical_name row) in
  Tables (if decide (kg ∈ order t) then order t else order t ++ [kg])
         (<[kg := cui]> (kg_to_cui t))
         (<[kg := syns]> (kg_to_catalog_syns t))
         (<[kg := canonical]> (kg_to_canonical t)).

Definition load (rows : list catalog_row) : tables :=
  foldl load_step (Tables [] ∅ ∅ ∅) rows.

(** [{cui: kg for kg, cui in kg_to_cui.items()}]. *)
Definition invert (t : tables) : gmap string string :=
  foldl (λ m kg, match kg_to_cui t !! kg with
                 | Some cui => <[cui := kg]> m
                 | None => m
                 end) ∅ (order t).

(** One MRCONSO row: [base_sets[kg_id].add(text)]. *)
Definition conso_step (cui_to_kg : gmap string string)
    (base : gmap string (gset string)) (fields : list string) : gmap string (gset string) :=
  if decide (length fields < 15) then base else
  let cui := Py.upper (Py.strip (fields !!! 0)) in
  let lat := Py.upper (Py.strip (fields !!! 1)) in
  let text := Py.strip (fields !!! 14) in
  if negb (Py.truthy cui) || negb (Py.truthy text) || bool_decide (lat ≠ "ENG")
  then base else
  match cui_to_kg !! cui with
  | Some kg => if Py.truthy kg then alter (λ s, {[text]} ∪ s) kg base else base
  | None => base
  end.

(** [if canonical: base_sets.setdefault(kg_id, set()).add(canonical)]. *)
Definition canonical_step (base : gmap string (gset string)) (p : string * string)
  : gmap string (gset string) :=
  if Py.truthy p.2 then index_add p.1 p.2 base else base.

Definition base_sets (t : tables) (mrconso : list (list string)) : gmap string (gset string) :=
  let b0 : gmap string (gset string) := gset_to_gmap ∅ (dom (kg_to_cui t)) in
  let b1 := foldl (conso_step (invert t)) b0 mrconso in
  foldl canonical_step b1 (map_to_list (kg_to_canonical t)).

Definition base_entry (base : gmap string (gset string)) (kg : string)
  : option (string * list string) :=
  match Py.sorted_casefold (hits base kg) with
  | [] => None
  | l => Some (kg, l)
  end.

Definition overlay_entry (t : tables) (base : gmap string (gset string)) (kg : string)
  : option (string * list string) :=
  let base_sorted := Py.sorted_casefold (hits base kg) in
  match Py.sorted_casefold (hits (kg_to_catalog_syns t) kg ∖ list_to_set base_sorted) with
  | [] => None
  | l => Some (kg, l)
  end.

(** [build]: the contents of umls_dict.txt and of umls_dict.overlay.json,
    each as the list of its (key, surfaces) members in file order. *)
Definition build (catalog : list catalog_row) (mrconso : list (list string))
  : list (string * list string) * list (string * list string) :=
  let t := load catalog in
  let base := base_sets t mrconso in
  (omap (base_entry base) (Py.sorted (dom base)),
   omap (overlay_entry t base) (Py.sorted (dom base))).

End Stage06.

(** ** validate_dict_overlay.py *)

Module Validate.

(** The outcome of [main]: it returns, or raises one of its two
    [AssertionError]s (the message text is not modelled). *)
Inductive verdict :=
  | Accepted
  | OverlayKeysMissing (missing : list string)
  | OverlayIntersectsBase (overlap_keys : gset string).

(** [json.loads] of an object: a later member replaces an earlier one with
    the same key. *)
Definition dict_of_pairs (l : list (string * list string)) : gmap string (list string) :=
  foldl (λ m p, <[p.1 := p.2]> m) ∅ l.

(** [_as_str_list]: the stripped, non-empty aliases. *)
Definition _as_str_list (value : list string) : list string :=
  filter (λ s, Py.truthy s = true) (Py.strip <$> value).

(** [sorted(set(_as_str_list(aliases)), key=str.casefold)]. *)
Definition norm (aliases : list string) : list string :=
  Py.sorted_casefold (list_to_set (_as_str_list aliases)).

Definition base_norm (base : list (string * list string)) : gmap string (list string) :=
  norm <$> dict_of_pairs base.

Definition overlay_norm (overlay : list (string * list string)) : gmap string (list string) :=
  filter (λ p, p.2 ≠ []) (norm <$> dict_of_pairs overlay).

(** The keys of the overlay whose aliases meet the base aliases. *)
Definition overlap_keys (bn on : gmap string (list string)) : gset string :=
  dom (filter (λ p, (list_to_set (default [] (bn !! p.1)) : gset string)
                    ∩ list_to_set p.2 ≠ ∅) on).

Definition main (allow_overlay_new_keys : bool)
    (base overlay : list (string * list string)) : verdict :=
  let bn := base_norm base in
  let on := overlay_norm overlay in
  let missing := Py.sorted (dom on ∖ dom bn) in
  if negb allow_overlay_new_keys && bool_decide (missing ≠ []) then
    OverlayKeysMissing missing
  else if bool_decide (overlap_keys bn on ≠ ∅) then
    OverlayIntersectsBase (overlap_keys bn on)
  else Accepted.

End Validate.

(** ** Predicates used in the statements *)

(** The characters a slug is made of. *)
Definition slug_char (c : ascii) : bool := Py.is_alnum_lower c || Ascii.eqb c "_".


(** What every catalog entry satisfies, under the key [k] it is stored at. *)
Record concept_ok (k : string) (c : Stage01.concept) : Prop := ConceptOk {
  ok_kg_id : Stage01.kg_id c = k;
  ok_canonical : Stage01.canonical_name c ∈ Stage01.synonyms c;
  ok_canonical_stripped : Py.strip (Stage01.canonical_name c) = Stage01.canonical_name c;
  ok_canonical_truthy : Stage01.canonical_name c ≠ EmptyString;
  ok_key_stripped : Py.strip k = k
}.






(** What an entry of [merged] under key [k] holds once the rows [rows]
    have been merged: the non-empty source and evidence fields of the rows
    with that key, and the largest of their scores. *)
Record entry_ok (rows : list edge) (k : string * string * string)
    (m : Stage05.entry) : Prop := EntryOk {
  ok_source : ∀ x, x ≠ EmptyString →
      (x ∈ Stage05.m_source m ↔ ∃ e, e ∈ rows ∧ edge_key e = k ∧ edge_source e = x);
  ok_evidence : ∀ x, x ≠ EmptyString →
      (x ∈ Stage05.m_evidence m ↔ ∃ e, e ∈ rows ∧ edge_key e = k ∧ edge_evidence e = x);
  ok_score_attained : ∃ e, e ∈ rows ∧ edge_key e = k ∧ edge_score e = Stage05.m_score m;
  ok_score_max : ∀ e, e ∈ rows → edge_key e = k → (edge_score e <= Stage05.m_score m)%Q
}.

Definition merged_ok (rows : list edge)
    (merged : gmap (string * string * string) Stage05.entry) : Prop :=
  ∀ k, match merged !! k with
       | None => ∀ e, e ∈ rows → edge_key e ≠ k
       | Some m => entry_ok rows k m
       end.

(** [k] is the kg_id of a line of the catalog file. *)
Definition known (catalog : list catalog_row) (k : string) : Prop :=
  k ∈ row_kg_id <$> catalog.

Definition edge_known (catalog : list catalog_row) (e : edge) : Prop :=
  known catalog (edge_h e) ∧ known catalog (edge_t e).

(** The tables stage 06 reads from the catalog give every key a non-empty
    canonical name. *)
Definition canonical_ok (t : Stage06.tables) : Prop :=
  dom (Stage06.kg_to_cui t) = dom (Stage06.kg_to_canonical t)
  ∧ ∀ kg c, Stage06.kg_to_canonical t !! kg = Some c → c ≠ EmptyString.

(** Every surface the tables of stage 06 hold is stripped text. *)
Definition tables_stripped (t : Stage06.tables) : Prop :=
  (∀ kg S x, Stage06.kg_to_catalog_syns t !! kg = Some S → x ∈ S → Py.strip x = x)
  ∧ (∀ kg c, Stage06.kg_to_canonical t !! kg = Some c → Py.strip c = c).

Definition sets_stripped (base : gmap string (gset string)) : Prop :=
  ∀ kg x, x ∈ hits base kg → Py.strip x = x.

(** In pass B, [cui_to_kg[cui]] and [catalog[kg_id]] are defined for every
    CUI already seen. *)
Definition lookups_defined (st : Stage01.state) : Prop :=
  ∀ c, c ∈ Stage01.cui_seen st →
       ∃ kg, Stage01.cui_to_kg st !! c = Some kg
             ∧ is_Some (Stage01.catalog st !! kg).

(** ** Scenarios *)

(** Boundary scenario 1 of the specification: two English MRCONSO rows for
    C0000001, "Aspirin" (not preferred) then "Acetylsalicylic Acid"
    (preferred), and [cui_tuis[C0000001] = {T109}]. *)
Definition aspirin_mrsty : list string :=
  ["C0000001|T109|A1.4.1.2.1|Organic Chemical|AT00000001|256|"].

Definition aspirin_mrconso : list string :=
  ["C0000001|ENG|S|L0000001|PF|S0000001|N|A0000001||M0000001|D001241|MSH|ET|D001241|Aspirin|0|N||";
   "C0000001|ENG|P|L0000002|PF|S0000002|Y|A0000002||M0000001|D001241|MSH|MH|D001241|Acetylsalicylic Acid|0|N||"].

Definition aspirin_inputs : Stage01.inputs :=
  Stage01.Inputs (iter_rrf aspirin_mrsty) (iter_rrf aspirin_mrconso) [] [] [].

(** A drug concept with the one-letter synonym "K"; RxNorm then supplies
    the ingredient names "k" and "POTASSIUM". *)
Definition potassium_inputs : Stage01.inputs :=
  Stage01.Inputs
    [mrsty_row "C0032821" "T121"]
    [rrf15 "C0032821" "ENG" "Y" "" "" "Potassium";
     rrf15 "C0032821" "ENG" "N" "" "" "K"]
    [rrf15 "" "" "" "RXNORM" "IN" "k";
     rrf15 "" "" "" "RXNORM" "IN" "POTASSIUM"]
    [] [].




(** Two CUIs whose first English surfaces slugify alike: C0000002 takes the
    key drug_aspirin over from C0000001, and a later preferred row of
    C0000001 lands in the record of C0000002. *)
Definition collision_pre : list (list string) :=
  [rrf15 "C0000001" "ENG" "N" "" "" "Aspirin"].
Definition collision_row : list string :=
  rrf15 "C0000002" "ENG" "N" "" "" "ASPIRIN".
Definition collision_post : list (list string) :=
  [rrf15 "C0000001" "ENG" "Y" "" "" "Acetylsalicylic Acid"].
Definition collision_inputs : Stage01.inputs :=
  Stage01.Inputs
    [mrsty_row "C0000001" "T109"; mrsty_row "C0000002" "T121"]
    (collision_pre ++ collision_row :: collision_post)
    [] [] [].

(** Boundary scenario 3 of the specification, carried to the extractors:
    two drug concepts share the surface "paracetamol". *)
Definition paracetamol_inputs : Stage01.inputs :=
  Stage01.Inputs
    [mrsty_row "C0000970" "T121"; mrsty_row "C0699142" "T121";
     mrsty_row "C0027497" "T184"]
    [rrf15 "C0000970" "ENG" "Y" "" "" "Acetaminophen";
     rrf15 "C0000970" "ENG" "N" "" "" "Paracetamol";
     rrf15 "C0699142" "ENG" "Y" "" "" "Panadol";
     rrf15 "C0699142" "ENG" "N" "" "" "paracetamol";
     rrf15 "C0027497" "ENG" "Y" "" "" "Nausea"]
    [] [] [].

Definition paracetamol_catalog : list catalog_row := Stage01.build paracetamol_inputs.

Definition paracetamol_ctd : list (list string) :=
  [["Paracetamol"; "D000082"; "103-90-2"; "Nausea"; "marker/mechanism"; ""; ""; ""; ""; ""]].


(** Boundary scenario 6 of the specification: a drug "Warfarin", a disease
    "Hemorrhage", and two CTD rows for the pair, the first with direct
    evidence "marker/mechanism" and inference score 0.42, the second with
    direct evidence "therapeutic" and no inference score. *)
Definition warfarin_inputs : Stage01.inputs :=
  Stage01.Inputs
    [mrsty_row "C0043031" "T121"; mrsty_row "C0019080" "T047"]
    [rrf15 "C0043031" "ENG" "Y" "" "" "Warfarin";
     rrf15 "C0019080" "ENG" "Y" "" "" "Hemorrhage"]
    [] [] [].

Definition warfarin_catalog : list catalog_row := Stage01.build warfarin_inputs.

Definition warfarin_ctd : list (list string) :=
  [["Warfarin"; "D014859"; "81-81-2"; "Hemorrhage"; "marker/mechanism"; ""; ""; "0.42"; ""; ""];
   ["Warfarin"; "D014859"; "81-81-2"; "Hemorrhage"; "therapeutic"; ""; ""; ""; ""; ""]].

Definition warfarin_ctd_file : list csv_row :=
  write_edges_csv (Stage04.build warfarin_catalog warfarin_ctd).





(** A SIDER row and a UMLS row for one key; the UMLS row's score cell does
    not hold a number. *)
Definition scoreless_umls_file : list csv_row :=
  [CsvRow "drug_warfarin" "ADVERSE_EFFECT" "disease_hemorrhage" "UMLS" "n/a" "MTH:causes"].
Definition scored_sider_file : list csv_row :=
  [CsvRow "drug_warfarin" "ADVERSE_EFFECT" "disease_hemorrhage" "SIDER" "0.9"
          "warfarin -> Hemorrhage"].

(** A catalog line that stage 01 cannot write (its canonical name is
    empty), for a CUI that has no English MRCONSO row. *)
Definition nameless_catalog : list catalog_row :=
  [CatalogRow "drug_x" "C0000009" Drug "" ["Xanthine"] ["UMLS"]].

(** * Properties *)

(** ** The primitives on sample text *)

Example slugify_ex : slugify "  Acetylsalicylic   Acid (ASA) " = "acetylsalicylic_acid_asa".
Proof. vm_compute. reflexivity. Qed.

Example slugify_empty_ex : slugify " -- " = "unknown".
Proof. vm_compute. reflexivity. Qed.

Example normalize_ex : normalize_surface "  Aspirin   81 MG" = "aspirin 81 mg".
Proof. vm_compute. reflexivity. Qed.

Example split_on_ex : Py.split_on "|" "UMLS|SIDER|" = ["UMLS"; "SIDER"; ""].
Proof. vm_compute. reflexivity. Qed.

Example iter_rrf_ex :
  iter_rrf ["C0000001|T109|A1.4.1.2.1|Organic Chemical|AT00000001|256|"]
  = [["C0000001"; "T109"; "A1.4.1.2.1"; "Organic Chemical"; "AT00000001"; "256"; ""]].
Proof. vm_compute. reflexivity. Qed.

Example parse_float_ex :
  Score.parse_float "0.42" = Some (21 # 50) ∧ Score.parse_float "1.0" = Some 1%Q
  ∧ Score.parse_float "5e-1" = Some (1 # 2) ∧ Score.parse_float "" = None
  ∧ Score.parse_float "1.2.3" = None ∧ Score.parse_float "n/a" = None.
Proof. vm_compute. repeat split; reflexivity. Qed.

Example format4_ex :
  Score.format4 (21 # 50) = "0.4200" ∧ Score.format4 1 = "1.0000"
  ∧ Score.format4 (3 # 4) = "0.7500" ∧ Score.format4 (123457 # 1000000) = "0.1235".
Proof. vm_compute. repeat split; reflexivity. Qed.

Example repr_float_ex :
  Score.repr_float (21 # 50) = "0.42" ∧ Score.repr_float 1 = "1.0"
  ∧ Score.repr_float (9 # 10) = "0.9" ∧ Score.repr_float (3 # 4) = "0.75".
Proof. vm_compute. repeat split; reflexivity. Qed.

Example score_of_ex :
  Stage04.score_of "0.42" = 21 # 50 ∧ Stage04.score_of "" = 3 # 4
  ∧ Stage04.score_of "1.2.3" = 3 # 4 ∧ Stage04.score_of "1e-3" = 3 # 4.
Proof. vm_compute. repeat split; reflexivity. Qed.

(** ** Strings *)

Section strings.
Context (p : ascii → bool).

Lemma rstrip_by_idemp s : Py.rstrip_by p (Py.rstrip_by p s) = Py.rstrip_by p s.
Proof.
  induction s as [|c s IH]; simpl; [done|].
  destruct (Py.rstrip_by p s) as [|d r] eqn:E.
  - destruct (p c) eqn:Ec; simpl; [done|]. by rewrite Ec.
  - change (Py.rstrip_by p (String c (String d r))) with
      (match Py.rstrip_by p (String d r) with
       | EmptyString => if p c then EmptyString else String c EmptyString
       | r' => String c r'
       end).
    by rewrite IH.
Qed.

Lemma lstrip_by_head s :
  Py.lstrip_by p s = EmptyString ∨
  ∃ c s', Py.lstrip_by p s = String c s' ∧ p c = false.
Proof.
  induction s as [|c s IH]; simpl; [by left|].
  destruct (p c) eqn:E; [done|]. right. eauto.
Qed.

Lemma rstrip_by_cons c s :
  p c = false → ∃ r, Py.rstrip_by p (String c s) = String c r.
Proof.
  intros Hc. simpl. destruct (Py.rstrip_by p s); [rewrite Hc|]; eauto.
Qed.

Lemma strip_by_idemp s : Py.strip_by p (Py.strip_by p s) = Py.strip_by p s.
Proof.
  unfold Py.strip_by.
  destruct (lstrip_by_head s) as [->|(c & s' & -> & Hc)]; [done|].
  destruct (rstrip_by_cons c s' Hc) as [r Hr]. rewrite Hr.
  simpl Py.lstrip_by at 1. rewrite Hc, <- Hr. apply rstrip_by_idemp.
Qed.

Lemma rstrip_by_none s :
  Py.all_chars (λ c, negb (p c)) s = true → Py.rstrip_by p s = s.
Proof.
  induction s as [|c s IH]; simpl; [done|].
  intros [Hc Hs]%andb_prop. rewrite (IH Hs).
  apply negb_true_iff in Hc. destruct s; [|done]. by rewrite Hc.
Qed.

Lemma strip_by_none s :
  Py.all_chars (λ c, negb (p c)) s = true → Py.strip_by p s = s.
Proof.
  intros H. unfold Py.strip_by.
  assert (Py.lstrip_by p s = s) as ->; [|by apply rstrip_by_none].
  destruct s as [|c s]; simpl in *; [done|].
  apply andb_prop in H as [Hc _]. apply negb_true_iff in Hc. by rewrite Hc.
Qed.

Lemma all_chars_lstrip_by q s :
  Py.all_chars q s = true → Py.all_chars q (Py.lstrip_by p s) = true.
Proof.
  induction s as [|c s IH]; simpl; [done|].
  intros H. destruct (p c); [|done]. apply andb_prop in H as [_ H]. auto.
Qed.

Lemma all_chars_rstrip_by q s :
  Py.all_chars q s = true → Py.all_chars q (Py.rstrip_by p s) = true.
Proof.
  induction s as [|c s IH]; simpl; [done|].
  intros [Hc Hs]%andb_prop. specialize (IH Hs).
  destruct (Py.rstrip_by p s).
  - destruct (p c); simpl; [done|]. by rewrite Hc.
  - simpl in *. by rewrite Hc, IH.
Qed.

Lemma all_chars_sub_runs_from q r b s :
  q r = true → (∀ c, p c = false → q c = true) →
  Py.all_chars q (Py.sub_runs_from p r b s) = true.
Proof.
  intros Hr Hq. revert b.
  induction s as [|c s IH]; intros b; simpl; [done|].
  destruct (p c) eqn:Ec.
  - destruct b; simpl; [apply IH|]. by rewrite Hr, IH.
  - simpl. by rewrite (Hq c Ec), IH.
Qed.

Lemma all_chars_sub_runs_from_keep q r b s :
  q r = true → Py.all_chars q s = true →
  Py.all_chars q (Py.sub_runs_from p r b s) = true.
Proof.
  intros Hr. revert b.
  induction s as [|c s IH]; intros b; simpl; [done|].
  intros [Hc Hs]%andb_prop.
  destruct (p c).
  - destruct b; simpl; [by apply IH|]. by rewrite Hr, IH.
  - simpl. by rewrite Hc, IH.
Qed.

End strings.

Lemma all_chars_app q s1 s2 :
  Py.all_chars q s1 = true → Py.all_chars q s2 = true →
  Py.all_chars q (s1 +:+ s2) = true.
Proof.
  induction s1 as [|c s1 IH]; simpl; [done|].
  intros [Hc H1]%andb_prop H2. by rewrite Hc, IH.
Qed.

Lemma all_chars_impl (q q' : ascii → bool) s :
  (∀ c, q c = true → q' c = true) →
  Py.all_chars q s = true → Py.all_chars q' s = true.
Proof.
  intros Hq. induction s as [|c s IH]; simpl; [done|].
  intros [Hc Hs]%andb_prop. by rewrite (Hq c Hc), IH.
Qed.

Lemma strip_idemp s : Py.strip (Py.strip s) = Py.strip s.
Proof. apply strip_by_idemp. Qed.



Lemma slug_char_not_space c : slug_char c = true → negb (Py.is_space c) = true.
Proof. destruct c as [[] [] [] [] [] [] [] []]; vm_compute; congruence. Qed.

Lemma slugify_chars text : Py.all_chars slug_char (slugify text) = true.
Proof.
  unfold slugify. cbv zeta. set (s := Py.strip_by _ _).
  destruct (Py.truthy s); [subst s|done].
  apply all_chars_rstrip_by, all_chars_lstrip_by.
  apply all_chars_sub_runs_from_keep; [done|].
  apply all_chars_sub_runs_from; [done|].
  intros c Hc. unfold slug_char. apply negb_false_iff in Hc. by rewrite Hc.
Qed.

Lemma slugify_truthy text : Py.truthy (slugify text) = true.
Proof.
  unfold slugify. cbv zeta. set (s := Py.strip_by _ _).
  destruct (Py.truthy s) eqn:E; [exact E | reflexivity].
Qed.

Lemma truthy_ne s : Py.truthy s = true ↔ s ≠ EmptyString.
Proof. destruct s; simpl; split; (done || congruence). Qed.

Lemma truthy_false s : Py.truthy s = false ↔ s = EmptyString.
Proof. destruct s; simpl; split; (done || congruence). Qed.

(** ** Sorting *)

Section strict.
Context {A : Type} (R : relation A).

Lemma StronglySorted_strict (l : list A) :
  StronglySorted R l → NoDup l → StronglySorted (λ x y, R x y ∧ x ≠ y) l.
Proof.
  induction 1 as [|x l Hl IH Hx]; intros Hnd; [constructor|].
  apply NoDup_cons in Hnd as [Hx' Hnd].
  constructor; [by apply IH|].
  apply Forall_forall. intros y Hy. split.
  - by eapply Forall_forall in Hx.
  - intros ->. done.
Qed.

End strict.

Lemma sorted_elem (xs : gset string) x : x ∈ Py.sorted xs ↔ x ∈ xs.
Proof. unfold Py.sorted. rewrite merge_sort_Permutation. apply elem_of_elements. Qed.

Lemma sorted_strict (xs : gset string) : StronglySorted str_lt (Py.sorted xs).
Proof.
  apply (StronglySorted_strict String.le).
  - apply StronglySorted_merge_sort; apply _.
  - unfold Py.sorted. rewrite merge_sort_Permutation. apply NoDup_elements.
Qed.

Lemma sorted_casefold_elem (xs : gset string) x : x ∈ Py.sorted_casefold xs ↔ x ∈ xs.
Proof.
  unfold Py.sorted_casefold. rewrite merge_sort_Permutation. apply elem_of_elements.
Qed.

Lemma sorted_casefold_nil (xs : gset string) : Py.sorted_casefold xs = [] ↔ xs = ∅.
Proof.
  split.
  - intros H. apply set_eq. intros x. rewrite <- sorted_casefold_elem, H. set_solver.
  - intros ->. done.
Qed.

#[global] Instance key_le_total : Total key_le.
Proof.
  intros [[a1 a2] a3] [[b1 b2] b3]. unfold key_le, str_lt. simpl.
  destruct (decide (a1 = b1)) as [->|H1]; [|].
  - destruct (decide (a2 = b2)) as [->|H2].
    + destruct (String.le_total a3 b3); [left|right]; right; split; eauto.
    + destruct (String.le_total a2 b2); [left|right]; right; split; eauto.
  - destruct (String.le_total a1 b1); [left|right]; left; split; eauto.
Qed.

Lemma str_lt_trans a b c : str_lt a b → String.le b c → str_lt a c.
Proof.
  intros [Hab Hne] Hbc. split; [by etrans|].
  intros ->. apply Hne. by apply (anti_symm String.le).
Qed.

Lemma str_lt_trans' a b c : String.le a b → str_lt b c → str_lt a c.
Proof.
  intros Hab [Hbc Hne]. split; [by etrans|].
  intros ->. apply Hne. by apply (anti_symm String.le).
Qed.

#[global] Instance key_le_trans : Transitive key_le.
Proof.
  intros [[a1 a2] a3] [[b1 b2] b3] [[c1 c2] c3]. unfold key_le. simpl.
  intros [H1|[-> H1]] [H2|[-> H2]].
  - left. eapply str_lt_trans; [done|apply H2].
  - by left.
  - by left.
  - right. split; [done|].
    destruct H1 as [H1|[-> H1]], H2 as [H2|[-> H2]].
    + left. eapply str_lt_trans; [done|apply H2].
    + by left.
    + by left.
    + right. split; [done|by etrans].
Qed.


Lemma sorted_keys_elem (m : gmap (string * string * string) Stage05.entry) k :
  k ∈ Stage05.sorted_keys m ↔ is_Some (m !! k).
Proof.
  unfold Stage05.sorted_keys. rewrite merge_sort_Permutation, elem_of_elements.
  apply elem_of_dom.
Qed.


(** ** Surface indexes *)

Lemma hits_index_add idx n k n' k' :
  k' ∈ hits (index_add n k idx) n' ↔ (n' = n ∧ k' = k) ∨ k' ∈ hits idx n'.
Proof.
  unfold hits, index_add.
  destruct (decide (n = n')) as [->|Hne].
  - rewrite lookup_insert_eq. simpl. set_solver.
  - rewrite lookup_insert_ne by done. naive_solver.
Qed.

Lemma hits_foldl_index_add l idx n k :
  k ∈ hits (foldl (λ idx p, index_add p.1 p.2 idx) idx l) n ↔
  (n, k) ∈ l ∨ k ∈ hits idx n.
Proof.
  revert idx. induction l as [|[n' k'] l IH]; intros idx; simpl.
  - set_solver.
  - rewrite IH, hits_index_add, elem_of_cons. naive_solver.
Qed.

Lemma hits_index_of_pairs l n k : k ∈ hits (index_of_pairs l) n ↔ (n, k) ∈ l.
Proof.
  unfold index_of_pairs. rewrite hits_foldl_index_add.
  unfold hits. rewrite lookup_empty. set_solver.
Qed.

Lemma hits_typed_pairs keep rows n k :
  (n, k) ∈ typed_pairs keep rows → k ∈ row_kg_id <$> rows.
Proof.
  unfold typed_pairs. intros (row & Hin & Hrow)%list_elem_of_bind.
  destruct (keep _); [|set_solver].
  apply list_elem_of_fmap in Hin as (s & [= -> ->] & _).
  by apply list_elem_of_fmap_2.
Qed.

(** ** Stage 01: the catalog invariant *)

Section stage01.
Import Stage01.

Lemma foldl_preserves {A B} (P : A → Prop) (f : A → B → A) (l : list B) (a : A) :
  (∀ a b, P a → P (f a b)) → P a → P (foldl f a l).
Proof. intros Hf. revert a. induction l; simpl; auto. Qed.


Lemma conso_row_Some cui_tuis fields cui is_pref text et :
  conso_row cui_tuis fields = Some (cui, is_pref, text, et) →
  Py.strip text = text ∧ text ≠ EmptyString ∧ cui ≠ EmptyString ∧ et ≠ Entity.
Proof.
  unfold conso_row. intros H.
  case_decide; [done|].
  destruct (Py.truthy (Py.upper _) && Py.truthy (Py.strip _)) eqn:E;
    simpl in H; [|done].
  destruct (bool_decide (_ = "ENG")); simpl in H; [|done].
  case_decide; [done|]. simplify_eq.
  apply andb_prop in E as [E1 E2].
  rewrite strip_idemp. by rewrite <- !truthy_ne.
Qed.

Lemma kg_id_for_stripped cui text et :
  et ≠ Entity → Py.strip (kg_id_for cui text et) = kg_id_for cui text et.
Proof.
  intros Het. apply strip_by_none.
  assert (Py.all_chars slug_char (kg_id_for cui text et) = true) as H.
  { destruct et; try done; unfold kg_id_for;
      (apply all_chars_app; [done|]); apply (all_chars_app _ "_"); try done;
      apply slugify_chars. }
  revert H. apply all_chars_impl, slug_char_not_space.
Qed.

Lemma set_canonical_ok k is_pref text c :
  Py.strip text = text → text ≠ EmptyString →
  concept_ok k c → concept_ok k (set_canonical is_pref text c).
Proof.
  intros Ht Hne [H1 H2 H3 H4 H5]. split; simpl; try done.
  - destruct is_pref; set_solver.
  - by destruct is_pref.
  - by destruct is_pref.
Qed.

Lemma add_surface_ok k s source c :
  concept_ok k c → concept_ok k (add_surface s source c).
Proof. intros [H1 H2 H3 H4 H5]. split; simpl; try done. set_solver. Qed.

Lemma map_Forall_alter_2 {A} (P : string → A → Prop) (f : A → A) k (m : gmap string A) :
  (∀ x, P k x → P k (f x)) → map_Forall P m → map_Forall P (alter f k m).
Proof.
  intros Hf Hm k' x. rewrite lookup_alter.
  case_decide as Hk; [subst k'|by apply Hm].
  destruct (m !! k) eqn:E; simpl; [|done]. intros [= <-]. by apply Hf, Hm.
Qed.

Lemma conso_step_ok cui_tuis st fields :
  map_Forall concept_ok (catalog st) →
  map_Forall concept_ok (catalog (conso_step cui_tuis st fields)).
Proof.
  intros Hst. unfold conso_step.
  destruct (conso_row cui_tuis fields) as [[[[cui is_pref] text] et]|] eqn:E; [|done].
  apply conso_row_Some in E as (Ht & Hne & Hcui & Het).
  unfold conso_update. case_decide.
  - simpl. apply map_Forall_insert_2; [|done].
    split; simpl; try done; [set_solver|by apply kg_id_for_stripped].
  - destruct (cui_to_kg st !! cui); [|done]. simpl.
    apply map_Forall_alter_2; [|done]. intros c. by apply set_canonical_ok.
Qed.

Lemma pass_b_ok i : map_Forall concept_ok (catalog (pass_b i)).
Proof.
  unfold pass_b. apply (foldl_preserves (λ st, map_Forall concept_ok (catalog st))).
  - intros. by apply conso_step_ok.
  - simpl. apply map_Forall_empty.
Qed.

(** Enrichment only ever applies [add_surface] to entries. *)
Section enrich.
Context (Q : string → concept → Prop).
Context (HQ : ∀ k s source c, Q k c → Q k (add_surface s source c)).

Lemma _add_synonym_preserves cat by_norm kg value source :
  map_Forall Q cat → map_Forall Q (_add_synonym cat by_norm kg value source).1.
Proof.
  intros Hcat. unfold _add_synonym.
  repeat (case_decide || case_match); simpl; try done.
  apply map_Forall_alter_2; [|done]. intros. by apply HQ.
Qed.

Lemma enrich_name_preserves wanted source by_norm cat name :
  map_Forall Q cat → map_Forall Q (enrich_name wanted source by_norm cat name).
Proof.
  unfold enrich_name. apply foldl_preserves. intros cat' kg Hc.
  destruct (cat' !! kg); [|done]. case_decide; [|done].
  by apply _add_synonym_preserves.
Qed.

Lemma enrich_preserves by_norm i cat :
  map_Forall Q cat → map_Forall Q (enrich by_norm i cat).
Proof.
  intros Hcat. unfold enrich.
  apply foldl_preserves.
  { intros c d Hc. unfold mesh_step. apply foldl_preserves; [|done].
    intros. by apply enrich_name_preserves. }
  apply foldl_preserves.
  { intros c d Hc. unfold drugbank_step. apply foldl_preserves; [|done].
    intros. by apply enrich_name_preserves. }
  apply foldl_preserves; [|done].
  intros c fields Hc. unfold rxnorm_step.
  case_decide; [done|]. destruct (_ || _); [done|].
  by apply enrich_name_preserves.
Qed.

End enrich.

Lemma final_catalog_ok i : map_Forall concept_ok (final_catalog i).
Proof.
  unfold final_catalog. apply enrich_preserves.
  - intros. by apply add_surface_ok.
  - apply pass_b_ok.
Qed.

Lemma elem_of_emit cat r :
  r ∈ emit cat ↔ ∃ k c, cat !! k = Some c ∧ r = payload c.
Proof.
  unfold emit. rewrite list_elem_of_omap. split.
  - intros (k & _ & Hk). destruct (cat !! k) as [c|] eqn:E; [|done].
    simpl in Hk. exists k, c. by simplify_eq.
  - intros (k & c & Hk & ->). exists k. split.
    + apply sorted_elem, elem_of_dom. eauto.
    + by rewrite Hk.
Qed.

Lemma elem_of_catalog_build i r :
  r ∈ build i ↔ ∃ k c, final_catalog i !! k = Some c ∧ r = payload c.
Proof. apply elem_of_emit. Qed.

(** Every line of the catalog file: its kg_id and canonical name are
    stripped, non-empty text. *)
Lemma build_row_ok i r :
  r ∈ build i →
  Py.strip (row_kg_id r) = row_kg_id r ∧
  Py.strip (row_canonical_name r) = row_canonical_name r ∧
  row_canonical_name r ≠ EmptyString.
Proof.
  intros (k & c & Hk & ->)%elem_of_catalog_build.
  destruct (final_catalog_ok i k c Hk) as [H1 H2 H3 H4 H5].
  simpl. by rewrite H1.
Qed.

End stage01.

(** ** Stage 01: claims *)

(** C8. Every record written to entity_catalog.jsonl has its canonical
    name among its synonyms, and its synonyms list is sorted and free of
    duplicates (strictly increasing); this holds after canonical names were
    replaced by preferred rows and after the RxNorm, DrugBank and MeSH
    enrichment. *)
Theorem catalog_canonical_in_sorted_synonyms (i : Stage01.inputs) :
  Forall (λ r, row_canonical_name r ∈ row_synonyms r
               ∧ StronglySorted str_lt (row_synonyms r))
         (Stage01.build i).
Proof.
  apply Forall_forall. intros r (k & c & Hk & ->)%elem_of_catalog_build.
  destruct (final_catalog_ok i k c Hk) as [_ Hcan _ _ _]. simpl. split.
  - by apply sorted_elem.
  - apply sorted_strict.
Qed.

Lemma aspirin_build :
  Stage01.build aspirin_inputs =
  [CatalogRow "drug_aspirin" "C0000001" Drug "Acetylsalicylic Acid"
              ["Acetylsalicylic Acid"; "Aspirin"] ["UMLS"]].
Proof. vm_compute. reflexivity. Qed.

(** C2 (as amended). In boundary scenario 1 the catalog holds one concept
    for C0000001; its kg_id is "drug_aspirin", made from the first surface
    seen, its canonical name is "Acetylsalicylic Acid" and its synonyms
    are both surfaces. *)
Theorem aspirin_catalog :
  Stage01.build aspirin_inputs =
  [CatalogRow "drug_aspirin" "C0000001" Drug "Acetylsalicylic Acid"
              ["Acetylsalicylic Acid"; "Aspirin"] ["UMLS"]].
Proof. exact aspirin_build. Qed.

(** C2 as stated fails: no catalog row of the scenario has the kg_id
    "drug_acetylsalicylic_acid". *)
Lemma aspirin_kg_id_not_from_preferred :
  ¬ ∃ r, Stage01.build aspirin_inputs = [r]
         ∧ row_kg_id r = "drug_acetylsalicylic_acid"
         ∧ row_canonical_name r = "Acetylsalicylic Acid"
         ∧ "Aspirin" ∈ row_synonyms r
         ∧ "Acetylsalicylic Acid" ∈ row_synonyms r.
Proof.
  intros (r & Hr & Hid & _). rewrite aspirin_build in Hr.
  injection Hr as <-. simpl in Hid. discriminate Hid.
Qed.

(** *** The synonym enricher *)

Section enricher.
Import Stage01.







End enricher.



(** The potassium scenario end to end: "POTASSIUM" has been added with
    the RxNorm tag, the one-letter name "k" has not. *)
Example potassium_catalog_file :
  Stage01.build potassium_inputs =
  [CatalogRow "drug_potassium" "C0032821" Drug "Potassium"
              ["K"; "POTASSIUM"; "Potassium"] ["RxNorm"; "UMLS"]].
Proof. vm_compute. reflexivity. Qed.





(** *** Two CUIs under one kg_id *)

Section collision.
Import Stage01.

Lemma set_canonical_cui p t c : cui (set_canonical p t c) = cui c.
Proof. done. Qed.





Section tracked.
Context (c1 k : string).






End tracked.



Lemma conso_step_seen_mono tuis st fields :
  cui_seen st ⊆ cui_seen (conso_step tuis st fields).
Proof.
  unfold conso_step.
  destruct (conso_row tuis fields) as [[[[c p] t] e]|]; [|done].
  unfold conso_update. case_decide; simpl; [set_solver|].
  by destruct (cui_to_kg st !! c).
Qed.

End collision.



(** The collision scenario end to end: the one catalog line carries the
    later CUI, and the preferred surface of the earlier CUI has become its
    canonical name. *)
Example collision_catalog :
  Stage01.build collision_inputs =
  [CatalogRow "drug_aspirin" "C0000002" Drug "Acetylsalicylic Acid"
              ["ASPIRIN"; "Acetylsalicylic Acid"] ["UMLS"]].
Proof. vm_compute. reflexivity. Qed.

(** *** The dictionary lookups of stage 01 never raise KeyError *)

Section lookups.
Import Stage01.

Lemma conso_step_lookups_defined tuis st fields :
  lookups_defined st → lookups_defined (conso_step tuis st fields).
Proof.
  intros Hst. unfold conso_step.
  destruct (conso_row tuis fields) as [[[[c p] t] e]|]; [|done].
  unfold conso_update. case_decide as Hc.
  - intros c' Hc'. simpl in *.
    destruct (decide (c' = c)) as [->|Hne].
    + exists (kg_id_for c t e). by rewrite !lookup_insert_eq.
    + destruct (Hst c') as (kg & Hkg & Hcat); [set_solver|].
      exists kg. rewrite lookup_insert_ne by done. split; [done|].
      rewrite lookup_insert_is_Some. destruct (decide (kg_id_for c t e = kg)); auto.
  - destruct (cui_to_kg st !! c) as [kg0|]; [|done].
    intros c' Hc'. simpl in *. destruct (Hst c' Hc') as (kg & Hkg & Hcat).
    exists kg. split; [done|]. by rewrite lookup_alter_is_Some.
Qed.

Lemma pass_b_lookups_defined i : lookups_defined (pass_b i).
Proof.
  unfold pass_b. apply foldl_preserves.
  - intros. by apply conso_step_lookups_defined.
  - intros c Hc. simpl in Hc. set_solver.
Qed.

Lemma by_norm_hits_in_catalog (cat : gmap string concept) n k :
  k ∈ hits (build_by_norm cat) n → is_Some (cat !! k).
Proof.
  unfold build_by_norm, surface_pairs.
  intros ([k' row] & Hin & Hrow%elem_of_map_to_list)%hits_index_of_pairs%list_elem_of_bind.
  apply list_elem_of_fmap in Hin as (s & [= -> ->] & _). eauto.
Qed.

Lemma _add_synonym_dom cat by_norm kg value source :
  dom (_add_synonym cat by_norm kg value source).1 = dom cat.
Proof.
  unfold _add_synonym.
  repeat (case_decide || case_match); simpl; try done. apply dom_alter_L.
Qed.

Lemma enrich_name_dom wanted source by_norm cat name :
  dom (enrich_name wanted source by_norm cat name) = dom cat.
Proof.
  unfold enrich_name. apply (foldl_preserves (λ c, dom c = dom cat)); [|done].
  intros c kg <-. destruct (c !! kg); [|done]. case_decide; [|done].
  apply _add_synonym_dom.
Qed.

Lemma enrich_dom by_norm i cat : dom (enrich by_norm i cat) = dom cat.
Proof.
  unfold enrich.
  apply (foldl_preserves (λ c, dom c = dom cat)).
  { intros c d <-. unfold mesh_step.
    apply (foldl_preserves (λ c', dom c' = dom c)); [|done].
    intros c' name <-. apply enrich_name_dom. }
  apply (foldl_preserves (λ c, dom c = dom cat)).
  { intros c d <-. unfold drugbank_step.
    apply (foldl_preserves (λ c', dom c' = dom c)); [|done].
    intros c' name <-. apply enrich_name_dom. }
  apply (foldl_preserves (λ c, dom c = dom cat)); [|done].
  intros c fields <-. unfold rxnorm_step.
  case_decide; [done|]. destruct (_ || _); [done|]. apply enrich_name_dom.
Qed.

(** Whatever catalog the enrichment has reached, the kg_ids the index
    returns are keys of it. *)
Lemma enrichment_keys_defined i by_norm_cat n k :
  let cat := catalog (pass_b i) in
  k ∈ hits (build_by_norm cat) n →
  is_Some (enrich by_norm_cat i cat !! k).
Proof.
  intros cat Hk%by_norm_hits_in_catalog.
  apply elem_of_dom. rewrite enrich_dom. by apply elem_of_dom.
Qed.

End lookups.

(** ** Edge accumulation (stages 02-04) *)




Lemma push_edge_Forall (P : edge → Prop) acc e :
  P e → Forall P acc.2 → Forall P (push_edge acc e).2.
Proof.
  intros He H. unfold push_edge. case_decide; simpl; [done|].
  apply Forall_app. split; [done|]. by constructor.
Qed.



Section push_pairs.
Context (mk : string → string → edge) (hs ts : gset string).




Lemma push_pairs_Forall (P : edge → Prop) acc :
  (∀ h t, h ∈ hs → t ∈ ts → P (mk h t)) →
  Forall P acc.2 → Forall P (push_pairs mk hs ts acc).2.
Proof.
  intros HP. unfold push_pairs.
  assert (∀ l acc, (∀ h, h ∈ l → h ∈ hs) → Forall P acc.2 →
            Forall P (foldl (λ acc h, foldl (λ acc t, push_edge acc (mk h t))
                                            acc (Py.sorted ts)) acc l).2) as Hl.
  { induction l as [|h l IH]; intros acc' Hl Hacc; simpl; [done|].
    apply IH; [intros; apply Hl; by right|].
    assert (h ∈ hs) as Hh by (apply Hl; by left).
    assert (∀ l' acc, (∀ t, t ∈ l' → t ∈ ts) → Forall P acc.2 →
              Forall P (foldl (λ acc t, push_edge acc (mk h t)) acc l').2) as Hl'.
    { induction l' as [|t l' IH']; intros acc'' Hl' Hacc''; simpl; [done|].
      apply IH'; [intros; apply Hl'; by right|].
      apply push_edge_Forall; [|done]. apply HP; [done|]. apply Hl'. by left. }
    apply Hl'; [|done]. intros t. apply sorted_elem. }
  apply Hl. intros h. apply sorted_elem.
Qed.

End push_pairs.






Lemma gset_nonempty_size (X : gset string) : 1 < size X → X ≠ ∅.
Proof. intros H ->. rewrite size_empty in H. lia. Qed.


Lemma paracetamol_ambiguous :
  size (hits (drug_index paracetamol_catalog) (normalize_surface "paracetamol")) = 2.
Proof. vm_compute. reflexivity. Qed.








(** The CTD extractor on the same ambiguous surface. *)
Example paracetamol_ctd_edges :
  Stage04.build paracetamol_catalog paracetamol_ctd =
  [Edge "drug_acetaminophen" "ASSOCIATED_WITH" "disease_nausea" "CTD" (3 # 4)
        "Paracetamol -> Nausea (marker/mechanism)";
   Edge "drug_panadol" "ASSOCIATED_WITH" "disease_nausea" "CTD" (3 # 4)
        "Paracetamol -> Nausea (marker/mechanism)"].
Proof. vm_compute. reflexivity. Qed.

(** ** Stage 05: the merge *)

Section merge.
Import Stage05.

Lemma elem_of_snoc {A} (l : list A) x y : x ∈ l ++ [y] ↔ x ∈ l ∨ x = y.
Proof. by rewrite elem_of_app, list_elem_of_singleton. Qed.

Lemma opt_set_elem x y : x ≠ EmptyString → x ∈ opt_set y ↔ y = x.
Proof.
  intros Hx. unfold opt_set. destruct (Py.truthy y) eqn:E.
  - set_solver.
  - apply truthy_false in E as ->. set_solver.
Qed.

Lemma gtb_false a b : Score.gtb a b = false → (a <= b)%Q.
Proof. unfold Score.gtb. intros H%negb_false_iff. by apply Qle_bool_iff. Qed.

Lemma gtb_true a b : Score.gtb a b = true → (b <= a)%Q.
Proof.
  unfold Score.gtb. intros H%negb_true_iff.
  apply Qlt_le_weak, Qnot_le_lt. intros Hle%Qle_bool_iff. congruence.
Qed.

Lemma entry_ok_other rows k m e :
  edge_key e ≠ k → entry_ok rows k m → entry_ok (rows ++ [e]) k m.
Proof.
  intros Hne [H1 H2 H3 H4]. split.
  - intros x Hx. rewrite (H1 x Hx). split; intros (e' & He' & Hk & Hs).
    + exists e'. rewrite elem_of_app. auto.
    + apply elem_of_snoc in He' as [He'| ->]; [eauto|done].
  - intros x Hx. rewrite (H2 x Hx). split; intros (e' & He' & Hk & Hs).
    + exists e'. rewrite elem_of_app. auto.
    + apply elem_of_snoc in He' as [He'| ->]; [eauto|done].
  - destruct H3 as (e' & He' & Hk & Hs). exists e'. rewrite elem_of_app. auto.
  - intros e' [He'| ->]%elem_of_snoc Hk; [eauto|done].
Qed.

Lemma entry_ok_first rows e :
  (∀ e', e' ∈ rows → edge_key e' ≠ edge_key e) →
  entry_ok (rows ++ [e]) (edge_key e)
           (Entry (opt_set (edge_source e)) (edge_score e) (opt_set (edge_evidence e))).
Proof.
  intros Hnone. split; simpl.
  - intros x Hx. rewrite (opt_set_elem _ _ Hx). split.
    + intros <-. exists e. rewrite elem_of_app, list_elem_of_singleton. auto.
    + intros (e' & [He'| ->]%elem_of_snoc & Hk & Hs); [|done].
      by apply Hnone in He'.
  - intros x Hx. rewrite (opt_set_elem _ _ Hx). split.
    + intros <-. exists e. rewrite elem_of_app, list_elem_of_singleton. auto.
    + intros (e' & [He'| ->]%elem_of_snoc & Hk & Hs); [|done].
      by apply Hnone in He'.
  - exists e. rewrite elem_of_app, list_elem_of_singleton. auto.
  - intros e' [He'| ->]%elem_of_snoc Hk.
    + by apply Hnone in He'.
    + apply Qle_refl.
Qed.

Lemma entry_ok_next rows e m :
  entry_ok rows (edge_key e) m →
  entry_ok (rows ++ [e]) (edge_key e)
           (Entry ({[edge_source e]} ∪ m_source m)
                  (if Score.gtb (edge_score e) (m_score m)
                   then edge_score e else m_score m)
                  ({[edge_evidence e]} ∪ m_evidence m)).
Proof.
  intros [H1 H2 H3 H4]. split; simpl.
  - intros x Hx. rewrite elem_of_union, elem_of_singleton, (H1 x Hx). split.
    + intros [->|(e' & He' & Hk & Hs)].
      * exists e. rewrite elem_of_app, list_elem_of_singleton. auto.
      * exists e'. rewrite elem_of_app. auto.
    + intros (e' & [He'| ->]%elem_of_snoc & Hk & Hs); eauto.
  - intros x Hx. rewrite elem_of_union, elem_of_singleton, (H2 x Hx). split.
    + intros [->|(e' & He' & Hk & Hs)].
      * exists e. rewrite elem_of_app, list_elem_of_singleton. auto.
      * exists e'. rewrite elem_of_app. auto.
    + intros (e' & [He'| ->]%elem_of_snoc & Hk & Hs); eauto.
  - destruct (Score.gtb _ _).
    + exists e. rewrite elem_of_app, list_elem_of_singleton. auto.
    + destruct H3 as (e' & He' & Hk & Hs). exists e'. rewrite elem_of_app. auto.
  - intros e' He' Hk. destruct (Score.gtb _ _) eqn:E.
    + apply gtb_true in E.
      apply elem_of_snoc in He' as [He'| ->]; [|apply Qle_refl].
      eapply Qle_trans; [by apply H4|done].
    + apply gtb_false in E.
      apply elem_of_snoc in He' as [He'| ->]; [by apply H4|done].
Qed.

Lemma merge_step_ok rows merged e :
  merged_ok rows merged → merged_ok (rows ++ [e]) (merge_step merged e).
Proof.
  intros H k. unfold merge_step. specialize (H k) as Hk.
  destruct (decide (edge_key e = k)) as [<-|Hne].
  - destruct (merged !! edge_key e) as [m|] eqn:E.
    + rewrite lookup_insert_eq. by apply entry_ok_next.
    + rewrite lookup_insert_eq. by apply entry_ok_first.
  - assert (merge_step merged e !! k = merged !! k) as Hsame.
    { unfold merge_step. destruct (merged !! edge_key e);
        by rewrite lookup_insert_ne. }
    unfold merge_step in Hsame. rewrite Hsame.
    destruct (merged !! k) as [m|].
    + by apply entry_ok_other.
    + intros e' [He'| ->]%elem_of_snoc; [by apply Hk|done].
Qed.

Lemma foldl_merge_step_ok rows : merged_ok rows (foldl merge_step ∅ rows).
Proof.
  induction rows as [|e rows IH] using rev_ind.
  - intros k. simpl. rewrite lookup_empty. intros e He. by apply elem_of_nil in He.
  - rewrite foldl_app. simpl. by apply merge_step_ok.
Qed.

Lemma merge_all_ok p1 p2 p3 :
  merged_ok (_read_edges p1 ++ _read_edges p2 ++ _read_edges p3) (merge_all p1 p2 p3).
Proof. apply foldl_merge_step_ok. Qed.

Lemma merged_ok_key rows merged k :
  merged_ok rows merged → is_Some (merged !! k) ↔ k ∈ edge_key <$> rows.
Proof.
  intros H. specialize (H k). destruct (merged !! k) as [m|]; split.
  - intros _. destruct (ok_score_attained _ _ _ H) as (e & He & <- & _).
    by apply list_elem_of_fmap_2.
  - eauto.
  - by intros [? ?].
  - intros (e & -> & He)%list_elem_of_fmap. by apply H in He.
Qed.

Lemma elem_of_merged_build p1 p2 p3 o :
  o ∈ build p1 p2 p3 ↔ ∃ k m, merge_all p1 p2 p3 !! k = Some m ∧ o = out_row k m.
Proof.
  unfold build. rewrite list_elem_of_omap. split.
  - intros (k & _ & Hk). destruct (merge_all p1 p2 p3 !! k) as [m|] eqn:E; [|done].
    simpl in Hk. exists k, m. by simplify_eq.
  - intros (k & m & Hk & ->). exists k. split.
    + apply sorted_keys_elem. eauto.
    + by rewrite Hk.
Qed.




Lemma read_row_Some row e :
  read_row row = Some e →
  edge_key e = (Py.strip (cell_h row), Py.strip (cell_r row), Py.strip (cell_t row))
  ∧ edge_source e = Py.strip (cell_source row)
  ∧ edge_evidence e = Py.strip (cell_evidence row).
Proof.
  unfold read_row. destruct (negb _); [done|]. by intros [= <-].
Qed.

Lemma elem_of_read_edges rows e :
  e ∈ _read_edges rows ↔ ∃ row, row ∈ rows ∧ read_row row = Some e.
Proof. apply list_elem_of_omap. Qed.

End merge.

(** *** Claims on the merged file *)






(** The unparsable score wins the merge against the SIDER score 0.9. *)
Example scoreless_row_merged :
  Stage05.build scoreless_umls_file scored_sider_file [] =
  [CsvRow "drug_warfarin" "ADVERSE_EFFECT" "disease_hemorrhage" "SIDER|UMLS" "1.0000"
          "MTH:causes|warfarin -> Hemorrhage"].
Proof. vm_compute. reflexivity. Qed.

Lemma warfarin_ctd_edges :
  Stage04.build warfarin_catalog warfarin_ctd =
  [Edge "drug_warfarin" "ASSOCIATED_WITH" "disease_hemorrhage" "CTD" (21 # 50)
        "Warfarin -> Hemorrhage (marker/mechanism)";
   Edge "drug_warfarin" "TREATS" "disease_hemorrhage" "CTD" (3 # 4)
        "Warfarin -> Hemorrhage (therapeutic)"].
Proof. vm_compute. reflexivity. Qed.

Lemma warfarin_merged :
  Stage05.build [] [] warfarin_ctd_file =
  [CsvRow "drug_warfarin" "ASSOCIATED_WITH" "disease_hemorrhage" "CTD" "0.4200"
          "Warfarin -> Hemorrhage (marker/mechanism)";
   CsvRow "drug_warfarin" "TREATS" "disease_hemorrhage" "CTD" "0.7500"
          "Warfarin -> Hemorrhage (therapeutic)"].
Proof. vm_compute. reflexivity. Qed.

(** C7 (as amended). In boundary scenario 6, stage 04 emits an
    ASSOCIATED_WITH edge with score 0.42 for the first CTD row and, for the
    second row, a separate TREATS edge with the default score 0.75; the two
    edges differ in relation, so stage 05 keeps them as two rows, each
    with source CTD, its own evidence, and scores 0.4200 and 0.7500. *)
Theorem warfarin_rows_stay_apart :
  Stage04.build warfarin_catalog warfarin_ctd =
  [Edge "drug_warfarin" "ASSOCIATED_WITH" "disease_hemorrhage" "CTD" (21 # 50)
        "Warfarin -> Hemorrhage (marker/mechanism)";
   Edge "drug_warfarin" "TREATS" "disease_hemorrhage" "CTD" (3 # 4)
        "Warfarin -> Hemorrhage (therapeutic)"]
  ∧ Stage05.build [] [] warfarin_ctd_file =
    [CsvRow "drug_warfarin" "ASSOCIATED_WITH" "disease_hemorrhage" "CTD" "0.4200"
            "Warfarin -> Hemorrhage (marker/mechanism)";
     CsvRow "drug_warfarin" "TREATS" "disease_hemorrhage" "CTD" "0.7500"
            "Warfarin -> Hemorrhage (therapeutic)"].
Proof. split; [exact warfarin_ctd_edges | exact warfarin_merged]. Qed.

(** C7 as stated fails: the two CTD rows do not merge into one row. *)
Lemma warfarin_rows_not_merged :
  ¬ ∃ o, Stage05.build [] [] warfarin_ctd_file = [o]
         ∧ cell_score o = "0.4200" ∧ cell_source o = "CTD".
Proof. intros (o & H & _). rewrite warfarin_merged in H. discriminate H. Qed.


(** ** Edges refer to the catalog *)

Lemma foldl_preserves_in {A B} (P : A → Prop) (f : A → B → A) (l : list B) (a : A) :
  (∀ a b, b ∈ l → P a → P (f a b)) → P a → P (foldl f a l).
Proof.
  revert a. induction l as [|b l IH]; intros a Hf Ha; simpl; [done|].
  apply IH.
  - intros a' b' Hb'. apply Hf. by right.
  - apply Hf; [by left|done].
Qed.

Section refer.
Context (catalog : list catalog_row).


Lemma load_type_map_values cui k :
  (Stage02.load_type_map_from_catalog catalog).1 !! cui = Some k → known catalog k.
Proof.
  revert cui k. unfold Stage02.load_type_map_from_catalog.
  apply (foldl_preserves_in
           (λ m : gmap string string * gmap string etype,
              ∀ cui k, m.1 !! cui = Some k → known catalog k)).
  - intros m row Hrow Hm cui k. unfold Stage02.load_step. simpl.
    destruct (Py.truthy _); [|apply Hm].
    intros [[_ <-]|[_ H]]%lookup_insert_Some; [|by eapply Hm].
    by apply list_elem_of_fmap_2.
  - intros cui k. simpl. by rewrite lookup_empty.
Qed.

Lemma lookup_kg_known cui k :
  Stage02.lookup_kg (Stage02.load_type_map_from_catalog catalog).1 cui = Some k →
  known catalog k.
Proof.
  unfold Stage02.lookup_kg.
  destruct (_ !! cui) as [k'|] eqn:E; [|done].
  destruct (Py.truthy k'); [|done]. intros [= <-]. by eapply load_type_map_values.
Qed.

Lemma stage02_known mrrel : Forall (edge_known catalog) (Stage02.build catalog mrrel).
Proof.
  unfold Stage02.build.
  apply (foldl_preserves (λ acc : edge_acc, Forall (edge_known catalog) acc.2)); [|by simpl].
  intros acc fields Hacc. unfold Stage02.rel_step.
  case_decide; [done|].
  destruct (Stage02.map_relation _ _) as [mapped|]; [|done].
  destruct (Stage02.lookup_kg _ _) as [h|] eqn:Eh; [|done].
  destruct (Stage02.lookup_kg _ (Py.upper (Py.strip (fields !!! 4)))) as [t|] eqn:Et;
    [|done].
  destruct (Stage02.type_gate _ _ _); [|done].
  apply push_edge_Forall; [|done].
  split; simpl; by eapply lookup_kg_known.
Qed.

Lemma hits_index_known keep n k :
  k ∈ hits (index_of_pairs (typed_pairs keep catalog)) n → known catalog k.
Proof. intros H%hits_index_of_pairs. by eapply hits_typed_pairs. Qed.

Lemma stage03_known drug_names meddra :
  Forall (edge_known catalog) (Stage03.build catalog drug_names meddra).
Proof.
  unfold Stage03.build.
  apply (foldl_preserves (λ acc : edge_acc, Forall (edge_known catalog) acc.2)); [|by simpl].
  intros acc fields Hacc. unfold Stage03.se_step.
  case_decide; [done|]. destruct (Stage03.se_names _ _) as [dn ef].
  destruct (negb _); [done|]. repeat case_decide; try done.
  apply push_pairs_Forall; [|done].
  intros h t Hh Ht. split; simpl; by eapply hits_index_known.
Qed.

Lemma stage04_known ctd : Forall (edge_known catalog) (Stage04.build catalog ctd).
Proof.
  unfold Stage04.build.
  apply (foldl_preserves (λ acc : edge_acc, Forall (edge_known catalog) acc.2)); [|by simpl].
  intros acc row Hacc. unfold Stage04.ctd_step.
  destruct (Stage04.ctd_skipped row); [done|]. repeat case_decide; try done.
  apply push_pairs_Forall; [|done].
  intros h t Hh Ht. split; simpl; by eapply hits_index_known.
Qed.

(** Reading back a written edge whose head and tail are stripped text
    gives the same head and tail. *)
Lemma read_written_edge e e' :
  Py.strip (edge_h e) = edge_h e → Py.strip (edge_t e) = edge_t e →
  Stage05.read_row (write_edge e) = Some e' →
  edge_h e' = edge_h e ∧ edge_t e' = edge_t e.
Proof.
  intros Hh Ht. unfold Stage05.read_row, write_edge. simpl.
  destruct (negb _); [done|]. intros [= <-]. simpl. by rewrite Hh, Ht.
Qed.

Lemma read_edges_written (rows : list edge) e' :
  e' ∈ Stage05._read_edges (write_edges_csv rows) →
  ∃ e, e ∈ rows ∧ Stage05.read_row (write_edge e) = Some e'.
Proof.
  intros (row & (e & -> & He)%list_elem_of_fmap & Hread)%elem_of_read_edges. eauto.
Qed.

Lemma merged_known (p1 p2 p3 : list edge) :
  (∀ k, known catalog k → Py.strip k = k) →
  Forall (edge_known catalog) (p1 ++ p2 ++ p3) →
  Forall (λ o, known catalog (cell_h o) ∧ known catalog (cell_t o))
         (Stage05.build (write_edges_csv p1) (write_edges_csv p2) (write_edges_csv p3)).
Proof.
  intros Hstrip Hall. apply Forall_forall.
  intros o (k & m & Hk & ->)%elem_of_merged_build.
  assert (is_Some (Stage05.merge_all (write_edges_csv p1) (write_edges_csv p2)
                                     (write_edges_csv p3) !! k)) as Hsome by eauto.
  apply (merged_ok_key _ _ _ (merge_all_ok _ _ _)) in Hsome.
  apply list_elem_of_fmap in Hsome as (e' & -> & He').
  assert (∃ e, e ∈ p1 ++ p2 ++ p3 ∧ Stage05.read_row (write_edge e) = Some e')
    as (e & He & Hread).
  { apply elem_of_app in He' as [He'|He']; [|apply elem_of_app in He' as [He'|He']];
      apply read_edges_written in He' as (e & He & Hread);
      exists e; rewrite !elem_of_app; auto. }
  rewrite Forall_forall in Hall. destruct (Hall e He) as [Hh Ht].
  destruct (read_written_edge e e' (Hstrip _ Hh) (Hstrip _ Ht) Hread) as [Hh' Ht'].
  simpl. by rewrite Hh', Ht'.
Qed.

End refer.

Lemma catalog_ids_stripped i k :
  known (Stage01.build i) k → Py.strip k = k.
Proof.
  intros (r & -> & Hr)%list_elem_of_fmap. by apply build_row_ok in Hr as [? _].
Qed.

(** C4. With the catalog produced by stage 01, every edge emitted by
    stages 02 (UMLS), 03 (SIDER) and 04 (CTD), and every row of the file
    that stage 05 merges from their outputs, has a head and a tail that
    are kg_ids of the catalog. *)
Theorem edges_refer_to_catalog (i : Stage01.inputs)
    (mrrel drug_names meddra ctd : list (list string)) :
  let catalog := Stage01.build i in
  let ids := row_kg_id <$> catalog in
  let umls := Stage02.build catalog mrrel in
  let sider := Stage03.build catalog drug_names meddra in
  let ctd_edges := Stage04.build catalog ctd in
  Forall (λ e, edge_h e ∈ ids ∧ edge_t e ∈ ids) (umls ++ sider ++ ctd_edges)
  ∧ Forall (λ o, cell_h o ∈ ids ∧ cell_t o ∈ ids)
           (Stage05.build (write_edges_csv umls) (write_edges_csv sider)
                          (write_edges_csv ctd_edges)).
Proof.
  intros catalog ids umls sider ctd_edges.
  assert (Forall (edge_known catalog) (umls ++ sider ++ ctd_edges)) as Hall.
  { rewrite !Forall_app. split_and!.
    - apply stage02_known.
    - apply stage03_known.
    - apply stage04_known. }
  split; [exact Hall|].
  apply merged_known; [|done]. intros k. apply catalog_ids_stripped.
Qed.

(** ** Stage 06: base dictionary and overlay *)

Section dict.
Import Stage06.

Lemma load_canonical_ok rows :
  (∀ r, r ∈ rows → Py.strip (row_canonical_name r) ≠ EmptyString) →
  canonical_ok (load rows).
Proof.
  intros Hrows. unfold load.
  apply (foldl_preserves_in canonical_ok).
  - intros t row Hrow [Hdom Hc]. unfold load_step.
    destruct (negb _); [by split|]. split; simpl.
    + rewrite !dom_insert_L. by rewrite Hdom.
    + intros kg c [[_ <-]|[_ H]]%lookup_insert_Some; [by apply Hrows|by eapply Hc].
  - split; simpl; [by rewrite !dom_empty_L|].
    intros kg c. by rewrite lookup_empty.
Qed.

Lemma conso_step_dom cui_to_kg base fields :
  dom (conso_step cui_to_kg base fields) = dom base.
Proof.
  unfold conso_step. case_decide; [done|].
  destruct (_ || _); [done|].
  destruct (cui_to_kg !! _) as [kg|]; [|done].
  destruct (Py.truthy kg); [|done]. apply dom_alter_L.
Qed.

Lemma foldl_conso_step_dom cui_to_kg base rows :
  dom (foldl (conso_step cui_to_kg) base rows) = dom base.
Proof.
  apply (foldl_preserves (λ b, dom b = dom base)); [|done].
  intros b fields <-. apply conso_step_dom.
Qed.

Lemma canonical_step_mono base p kg x :
  x ∈ hits base kg → x ∈ hits (canonical_step base p) kg.
Proof.
  intros H. unfold canonical_step. destruct (Py.truthy _); [|done].
  apply hits_index_add. by right.
Qed.

Lemma foldl_canonical_step_mono l base kg x :
  x ∈ hits base kg → x ∈ hits (foldl canonical_step base l) kg.
Proof.
  revert base. induction l as [|p l IH]; intros base H; simpl; [done|].
  by apply IH, canonical_step_mono.
Qed.

Lemma foldl_canonical_step_elem l base kg c :
  (kg, c) ∈ l → c ≠ EmptyString → c ∈ hits (foldl canonical_step base l) kg.
Proof.
  intros Hin Hc. revert base.
  induction l as [|p l IH]; intros base; simpl; [by apply elem_of_nil in Hin|].
  apply elem_of_cons in Hin as [<-|Hin]; [|by apply IH].
  apply foldl_canonical_step_mono. unfold canonical_step. simpl.
  apply truthy_ne in Hc. rewrite Hc. apply hits_index_add. by left.
Qed.

Lemma foldl_canonical_step_dom l (base : gmap string (gset string)) kg :
  kg ∈ dom (foldl canonical_step base l) → kg ∈ dom base ∨ kg ∈ l.*1.
Proof.
  revert base. induction l as [|p l IH]; intros base; simpl; [by left|].
  intros [H|H]%IH; [|right; by right].
  unfold canonical_step in H. destruct (Py.truthy _); [|by left].
  unfold index_add in H. rewrite dom_insert_L in H.
  apply elem_of_union in H as [->%elem_of_singleton|H]; [right; by left|by left].
Qed.

Lemma base_sets_nonempty t mrconso kg :
  canonical_ok t → kg ∈ dom (base_sets t mrconso) →
  hits (base_sets t mrconso) kg ≠ ∅.
Proof.
  intros [Hdom Hc] Hkg. unfold base_sets in *.
  assert (kg ∈ dom (kg_to_canonical t)) as [c Hkgc]%elem_of_dom.
  { apply foldl_canonical_step_dom in Hkg as [Hkg|Hkg].
    - rewrite foldl_conso_step_dom, dom_gset_to_gmap in Hkg. by rewrite <- Hdom.
    - apply list_elem_of_fmap in Hkg as ([kg' c] & -> & Hin).
      apply elem_of_map_to_list in Hin. apply elem_of_dom. eauto. }
  assert (c ∈ hits (foldl canonical_step
                      (foldl (conso_step (invert t))
                             (gset_to_gmap ∅ (dom (kg_to_cui t))) mrconso)
                      (map_to_list (kg_to_canonical t))) kg) as Hin.
  { apply foldl_canonical_step_elem; [by apply elem_of_map_to_list|by eapply Hc]. }
  intros Hempty. rewrite Hempty in Hin. set_solver.
Qed.

Lemma elem_of_base_dict catalog mrconso kg bl :
  (kg, bl) ∈ (build catalog mrconso).1 →
  bl = Py.sorted_casefold (hits (base_sets (load catalog) mrconso) kg).
Proof.
  unfold build. simpl. intros (kg' & _ & H)%list_elem_of_omap.
  unfold base_entry in H. destruct (Py.sorted_casefold _) eqn:E; [done|].
  by simplify_eq.
Qed.

Lemma elem_of_overlay_dict catalog mrconso kg ol :
  (kg, ol) ∈ (build catalog mrconso).2 →
  kg ∈ dom (base_sets (load catalog) mrconso)
  ∧ ol = Py.sorted_casefold
           (hits (kg_to_catalog_syns (load catalog)) kg
            ∖ list_to_set (Py.sorted_casefold
                             (hits (base_sets (load catalog) mrconso) kg))).
Proof.
  unfold build. simpl. intros (kg' & Hkg & H)%list_elem_of_omap.
  apply sorted_elem in Hkg.
  unfold overlay_entry in H. cbv zeta in H.
  destruct (Py.sorted_casefold (_ ∖ _)) eqn:E; [done|].
  by simplify_eq.
Qed.

Lemma base_dict_key catalog mrconso kg :
  kg ∈ dom (base_sets (load catalog) mrconso) →
  hits (base_sets (load catalog) mrconso) kg ≠ ∅ →
  kg ∈ (build catalog mrconso).1.*1.
Proof.
  intros Hkg Hne. unfold build. simpl.
  apply list_elem_of_fmap.
  exists (kg, Py.sorted_casefold (hits (base_sets (load catalog) mrconso) kg)).
  split; [done|]. apply list_elem_of_omap. exists kg. split; [by apply sorted_elem|].
  unfold base_entry. destruct (Py.sorted_casefold _) eqn:E; [|done].
  by apply sorted_casefold_nil in E.
Qed.

Lemma overlay_disjoint catalog mrconso kg ol bl x :
  (kg, ol) ∈ (build catalog mrconso).2 → (kg, bl) ∈ (build catalog mrconso).1 →
  x ∈ ol → x ∉ bl.
Proof.
  intros [_ ->]%elem_of_overlay_dict ->%elem_of_base_dict.
  rewrite sorted_casefold_elem, elem_of_difference, elem_of_list_to_set.
  by intros [_ ?].
Qed.

End dict.

Lemma overlay_keys_in_base i mrconso kg :
  kg ∈ (Stage06.build (Stage01.build i) mrconso).2.*1 →
  kg ∈ (Stage06.build (Stage01.build i) mrconso).1.*1.
Proof.
  intros ([kg' ol] & -> & Hin)%list_elem_of_fmap. simpl.
  apply elem_of_overlay_dict in Hin as [Hkg _].
  apply base_dict_key; [done|].
  apply base_sets_nonempty; [|done].
  apply load_canonical_ok. intros r Hr.
  apply build_row_ok in Hr as (_ & -> & Hne). done.
Qed.

(** C6. For the dictionaries stage 06 emits from the catalog of stage 01
    (and any MRCONSO file): every key of the overlay is a key of the base
    dictionary, and under each key no surface listed in the overlay is
    listed in the base dictionary. *)
Theorem overlay_within_base_and_disjoint (i : Stage01.inputs)
    (mrconso : list (list string)) :
  let base_dict := (Stage06.build (Stage01.build i) mrconso).1 in
  let overlay_dict := (Stage06.build (Stage01.build i) mrconso).2 in
  (∀ kg, kg ∈ overlay_dict.*1 → kg ∈ base_dict.*1)
  ∧ (∀ kg ol bl x, (kg, ol) ∈ overlay_dict → (kg, bl) ∈ base_dict → x ∈ ol → x ∉ bl).
Proof.
  intros base_dict overlay_dict. split.
  - apply overlay_keys_in_base.
  - intros kg ol bl x. apply overlay_disjoint.
Qed.

(** The dictionaries of the potassium scenario: the RxNorm name is in the
    overlay only. *)
Example potassium_dicts :
  Stage06.build (Stage01.build potassium_inputs) (Stage01.mrconso potassium_inputs) =
  ([("drug_potassium", ["K"; "Potassium"])], [("drug_potassium", ["POTASSIUM"])]).
Proof. vm_compute. reflexivity. Qed.

(** The guarantee rests on the catalog of stage 01: for a catalog line with
    an empty canonical name and no MRCONSO row, the overlay has a key that
    the base dictionary lacks, and the companion checker rejects the pair
    of files. *)
Example nameless_overlay_key :
  Stage06.build nameless_catalog [] = ([], [("drug_x", ["Xanthine"])])
  ∧ Validate.main false [] [("drug_x", ["Xanthine"])]
    = Validate.OverlayKeysMissing ["drug_x"].
Proof. vm_compute. split; reflexivity. Qed.

Example potassium_validated :
  Validate.main false [("drug_potassium", ["K"; "Potassium"])]
                      [("drug_potassium", ["POTASSIUM"])]
  = Validate.Accepted.
Proof. vm_compute. reflexivity. Qed.

Lemma overlay_within_base_and_disjoint_witness :
  "drug_potassium"
    ∈ (Stage06.build (Stage01.build potassium_inputs)
                     (Stage01.mrconso potassium_inputs)).1.*1
  ∧ "POTASSIUM" ∉ ["K"; "Potassium"].
Proof.
  pose proof (overlay_within_base_and_disjoint potassium_inputs
                (Stage01.mrconso potassium_inputs)) as [Hkeys Hdisj].
  split.
  - apply Hkeys. apply (bool_decide_unpack _). vm_compute. exact I.
  - apply (Hdisj "drug_potassium" ["POTASSIUM"]).
    + apply (bool_decide_unpack _). vm_compute. exact I.
    + apply (bool_decide_unpack _). vm_compute. exact I.
    + apply (bool_decide_unpack _). vm_compute. exact I.
Defined.

(** *** The companion checker accepts what stage 06 emits *)

Section checker.
Import Stage06.

Lemma load_stripped rows : tables_stripped (load rows).
Proof.
  unfold load. apply (foldl_preserves tables_stripped).
  - intros t row [Hs Hc]. unfold load_step.
    destruct (negb _); [by split|]. split; simpl.
    + intros kg S x [[_ <-]|[_ H]]%lookup_insert_Some; [|by eapply Hs].
      intros (y & -> & _)%elem_of_list_to_set%list_elem_of_filter%proj2%list_elem_of_fmap.
      apply strip_idemp.
    + intros kg c [[_ <-]|[_ H]]%lookup_insert_Some; [apply strip_idemp|by eapply Hc].
  - split; simpl; intros ??; by rewrite lookup_empty.
Qed.

Lemma hits_alter_union (base : gmap string (gset string)) kg kg' text x :
  x ∈ hits (alter (λ s, {[text]} ∪ s) kg base) kg' → x = text ∨ x ∈ hits base kg'.
Proof.
  unfold hits. rewrite lookup_alter. case_decide; [subst kg'|by right].
  destruct (base !! kg); simpl; set_solver.
Qed.

Lemma conso_step_stripped cui_to_kg base fields :
  sets_stripped base → sets_stripped (conso_step cui_to_kg base fields).
Proof.
  intros Hb. unfold conso_step. case_decide; [done|].
  destruct (_ || _); [done|].
  destruct (cui_to_kg !! _) as [kg|]; [|done].
  destruct (Py.truthy kg); [|done].
  intros kg' x [->|Hx]%hits_alter_union; [apply strip_idemp|by eapply Hb].
Qed.

Lemma base_sets_stripped t mrconso :
  tables_stripped t → sets_stripped (base_sets t mrconso).
Proof.
  intros [_ Hc]. unfold base_sets.
  apply (foldl_preserves_in sets_stripped).
  - intros b [kg c] Hin%elem_of_map_to_list Hb. unfold canonical_step. simpl.
    destruct (Py.truthy c); [|done].
    intros kg' x [[_ ->]|H]%hits_index_add; [by eapply Hc|by eapply Hb].
  - apply foldl_preserves; [intros; by apply conso_step_stripped|].
    intros kg x. unfold hits. rewrite lookup_gset_to_gmap.
    destruct (guard _); simpl; set_solver.
Qed.

Lemma base_dict_stripped catalog mrconso kg bl x :
  (kg, bl) ∈ (build catalog mrconso).1 → x ∈ bl → Py.strip x = x.
Proof.
  intros ->%elem_of_base_dict Hx%sorted_casefold_elem.
  eapply base_sets_stripped; [apply load_stripped|done].
Qed.

Lemma overlay_dict_stripped catalog mrconso kg ol x :
  (kg, ol) ∈ (build catalog mrconso).2 → x ∈ ol → Py.strip x = x.
Proof.
  intros [_ ->]%elem_of_overlay_dict [Hx _]%sorted_casefold_elem%elem_of_difference.
  destruct (load_stripped catalog) as [Hs _]. unfold hits in Hx.
  destruct (kg_to_catalog_syns (load catalog) !! kg) eqn:E; simpl in Hx; [|set_solver].
  by eapply Hs.
Qed.

End checker.

Lemma dict_of_pairs_lookup l k v :
  Validate.dict_of_pairs l !! k = Some v → (k, v) ∈ l.
Proof.
  unfold Validate.dict_of_pairs. revert k v.
  induction l as [|[k' v'] l IH] using rev_ind; intros k v.
  - simpl. by rewrite lookup_empty.
  - rewrite foldl_app. simpl.
    intros [[<- <-]|[_ H]]%lookup_insert_Some; apply elem_of_snoc; [by right|].
    left. by apply IH.
Qed.

Lemma dict_of_pairs_dom l k :
  k ∈ l.*1 → k ∈ dom (Validate.dict_of_pairs l).
Proof.
  unfold Validate.dict_of_pairs.
  induction l as [|[k' v'] l IH] using rev_ind; [by intros ?%elem_of_nil|].
  rewrite fmap_app, foldl_app. simpl. rewrite dom_insert_L.
  intros [H| ->]%elem_of_snoc; set_solver.
Qed.

Lemma norm_elem aliases y :
  y ∈ Validate.norm aliases → ∃ a, a ∈ aliases ∧ y = Py.strip a.
Proof.
  unfold Validate.norm, Validate._as_str_list.
  intros (a & -> & Ha)%sorted_casefold_elem%elem_of_list_to_set%list_elem_of_filter%proj2%list_elem_of_fmap.
  eauto.
Qed.

(** For the catalog of stage 01, [validate_dict_overlay.py] accepts the
    two dictionaries stage 06 writes. *)
Theorem checker_accepts_stage06 (i : Stage01.inputs) (mrconso : list (list string)) :
  Validate.main false (Stage06.build (Stage01.build i) mrconso).1
                      (Stage06.build (Stage01.build i) mrconso).2
  = Validate.Accepted.
Proof.
  set (base := (Stage06.build _ _).1). set (overlay := (Stage06.build _ _).2).
  unfold Validate.main. cbv zeta.
  assert (dom (Validate.overlay_norm overlay) ∖ dom (Validate.base_norm base) = ∅) as ->.
  { apply set_eq. intros k. rewrite elem_of_difference. split; [|set_solver].
    intros [Hk Hnk]. exfalso. apply Hnk.
    unfold Validate.base_norm. rewrite dom_fmap_L. apply dict_of_pairs_dom.
    apply overlay_keys_in_base. fold overlay.
    apply elem_of_dom in Hk as [v Hv].
    unfold Validate.overlay_norm in Hv.
    apply map_lookup_filter_Some in Hv as [Hv _].
    apply lookup_fmap_Some in Hv as (ol & _ & Hol).
    apply dict_of_pairs_lookup in Hol. by apply (list_elem_of_fmap_2 fst) in Hol. }
  assert (Validate.overlap_keys (Validate.base_norm base)
                                (Validate.overlay_norm overlay) = ∅) as ->.
  { unfold Validate.overlap_keys. apply dom_empty_iff_L, map_empty. intros k.
    apply map_lookup_filter_None. right. intros v Hv Hmeet. simpl in Hmeet.
    unfold Validate.overlay_norm in Hv.
    apply map_lookup_filter_Some in Hv as [Hv _].
    apply lookup_fmap_Some in Hv as (ol & <- & Hol%dict_of_pairs_lookup).
    unfold Validate.base_norm in Hmeet. rewrite lookup_fmap in Hmeet.
    destruct (Validate.dict_of_pairs base !! k) as [bl|] eqn:Hbl;
      simpl in Hmeet; [|set_solver].
    apply dict_of_pairs_lookup in Hbl.
    apply Hmeet. apply set_eq. intros y.
    rewrite elem_of_intersection, !elem_of_list_to_set. split; [|set_solver].
    intros [(b & Hb & ->)%norm_elem (a & Ha & Hab)%norm_elem]. exfalso.
    rewrite (base_dict_stripped _ _ _ _ _ Hbl Hb) in Hab.
    rewrite (overlay_dict_stripped _ _ _ _ _ Hol Ha) in Hab. subst b.
    by apply (overlay_disjoint _ _ _ _ _ _ Hol Hbl Ha). }
  done.
Qed.
